(** * skribblin: the blog's React components and its content files

    A shallow embedding of the presentational components of the blog
    ([src/components/layout.js], [src/pages/index.js],
    [src/components/bio.js]) and of the front matter of the markdown
    posts under [content/blog].

    React elements are modelled as a tree ([element]).  The components of
    this repository ([Title], [Layout], [PostLink], [BlogIndex], [Bio])
    are functions producing that tree; components that belong to other
    packages ([Link] of gatsby, [SEO]) stay in the tree as [External]
    nodes carrying their props. *)

From Stdlib Require Import ZArith QArith Sorted Ascii.
From stdpp Require Import gmap strings list.

Set Warnings "-register-all".

Local Open Scope string_scope.
Local Open Scope Z_scope.

(** ** Values *)

(** A nullable string, as GraphQL hands it over: [None] is [null]. *)
Definition nullable := option string.

(** ** [new Date().getFullYear()]

    The time value of a [Date] is the number of milliseconds since the
    epoch; [getFullYear] is [YearFromTime(LocalTime(t))] of ECMAScript. *)
Module Date.

Record t := mk {
  timeValue : Z;   (* milliseconds since 1970-01-01T00:00:00Z *)
  localTZA : Z     (* offset of the host's local time zone, in milliseconds *)
}.

Definition msPerDay : Z := 86400000.

Definition Day (tv : Z) : Z := tv / msPerDay.

Definition DayFromYear (y : Z) : Z :=
  365 * (y - 1970) + (y - 1969) / 4 - (y - 1901) / 100 + (y - 1601) / 400.

Definition TimeFromYear (y : Z) : Z := msPerDay * DayFromYear y.

(** The year of a day number, counted in 400-year eras that start on
    March 1st. *)
Definition yearOfDay (d : Z) : Z :=
  let z := d + 719468 in
  let era := z / 146097 in
  let doe := z - era * 146097 in
  let yoe := (doe - doe / 1460 + doe / 36524 - doe / 146096) / 365 in
  let doy := doe - (365 * yoe + yoe / 4 - yoe / 100) in
  let mp := (5 * doy + 2) / 153 in
  yoe + era * 400 + (if mp <? 10 then 0 else 1).

Definition YearFromTime (tv : Z) : Z := yearOfDay (Day tv).

Definition LocalTime (d : t) : Z := timeValue d + localTZA d.

Definition getFullYear (d : t) : Z := YearFromTime (LocalTime d).

End Date.

(** ** Typography

    [rhythm] and [scale] come from the [typography] package configured in
    [src/utils/typography.js]; they are parameters of the development.
    The numeric literals passed to them (1.5, 1 / 4, 3 / 4, 24, 2.5) are
    exact binary fractions and are written as rationals. *)

(** A value of a style object: a number or a string. *)
Inductive cssval :=
  | CssNum (n : Z)
  | CssStr (s : string).

(** ** React elements *)

Inductive prop :=
  | PStr (s : string)                    (* a string prop *)
  | PStrs (l : list string)              (* an array of strings *)
  | PStyle (st : gmap string cssval)     (* a style object *)
  | PHtml (html : string).               (* the object [{__html: html}] *)

Inductive element :=
  | Text (s : string)
  | Number (n : Z)
  | Host (tag : string) (props : gmap string prop) (children : list element)
  | External (name : string) (props : gmap string prop) (children : list element)
  | Keyed (key : string) (output : element).

(** The strings that reach the page as raw HTML, in document order. *)
Fixpoint rawHtml (e : element) : list string :=
  match e with
  | Text _ | Number _ => []
  | Host _ props children =>
      match props !! "dangerouslySetInnerHTML" with
      | Some (PHtml html) => [html]
      | _ => flat_map rawHtml children
      end
  | External _ _ children => flat_map rawHtml children
  | Keyed _ output => rawHtml output
  end.

(** The strings that reach the page as text children, in document order. *)
Fixpoint textOf (e : element) : list string :=
  match e with
  | Text s => [s]
  | Number _ => []
  | Host _ _ children | External _ _ children => flat_map textOf children
  | Keyed _ output => textOf output
  end.

(** ** Query results *)

Module Frontmatter.
Record t := mk {
  date : string;
  title : nullable;
  description : nullable
}.
End Frontmatter.

Module Fields.
Record t := mk { slug : string }.
End Fields.

Module Node.
Record t := mk {
  excerpt : string;
  fields : Fields.t;
  frontmatter : Frontmatter.t
}.
End Node.

Module Edge.
Record t := mk { node : Node.t }.
End Edge.

Module SiteMetadata.
Record t := mk { title : string }.
End SiteMetadata.

Module Site.
Record t := mk { siteMetadata : SiteMetadata.t }.
End Site.

Module AllMarkdownRemark.
Record t := mk { edges : list Edge.t }.
End AllMarkdownRemark.

(** The result of [pageQuery]. *)
Module Data.
Record t := mk {
  site : Site.t;
  allMarkdownRemark : AllMarkdownRemark.t
}.
End Data.

(** The result of [bioQuery]. *)
Module Social.
Record t := mk { twitter : nullable }.
End Social.

Module BioSiteMetadata.
Record t := mk {
  author : string;
  social : Social.t
}.
End BioSiteMetadata.

Module BioSite.
Record t := mk { siteMetadata : BioSiteMetadata.t }.
End BioSite.

Module BioData.
Record t := mk { site : BioSite.t }.
End BioData.

Module Location.
Record t := mk { pathname : string }.
End Location.

(** What a render reads besides its props: the host's clock and the
    stored result of the static query of [Bio]. *)
Module Env.
Record t := mk {
  now : Date.t;
  bioQuery : BioData.t
}.
End Env.

(** ** Reading a rendered tree *)

Definition tagOf (e : element) : option string :=
  match e with
  | Host tag _ _ => Some tag
  | _ => None
  end.

Definition propsOf (e : element) : gmap string prop :=
  match e with
  | Host _ props _ | External _ props _ => props
  | _ => ∅
  end.

Definition childrenOf (e : element) : list element :=
  match e with
  | Host _ _ children | External _ _ children => children
  | _ => []
  end.

Definition styleOf (e : element) : option (gmap string cssval) :=
  match propsOf e !! "style" with
  | Some (PStyle st) => Some st
  | _ => None
  end.

Definition isHost (tag : string) (e : element) : bool :=
  match e with
  | Host t _ _ => String.eqb t tag
  | _ => false
  end.

Definition isExternal (name : string) (e : element) : bool :=
  match e with
  | External n _ _ => String.eqb n name
  | _ => false
  end.

Definition isKeyed (e : element) : bool :=
  match e with
  | Keyed _ _ => true
  | _ => false
  end.

(** The first child of [e] that is a [tag] element. *)
Definition child (tag : string) (e : element) : option element :=
  List.find (isHost tag) (childrenOf e).

(** What a page built by [Layout] shows inside [<header>]. *)
Definition headerOf (page : element) : option element :=
  match child "header" page with
  | Some h => head (childrenOf h)
  | None => None
  end.

(** What a page built by [Layout] shows inside [<main>]. *)
Definition mainOf (page : element) : list element :=
  match child "main" page with
  | Some m => childrenOf m
  | None => []
  end.

(** What a page built by [Layout] shows inside [<footer>]. *)
Definition footerOf (page : element) : list element :=
  match child "footer" page with
  | Some f => childrenOf f
  | None => []
  end.

(** The keyed list entries of a page. *)
Definition postEntries (page : element) : list element :=
  List.filter isKeyed (mainOf page).

Definition entryKey (e : element) : option string :=
  match e with
  | Keyed key _ => Some key
  | _ => None
  end.

Definition entryOutput (e : element) : element :=
  match e with
  | Keyed _ output => output
  | _ => e
  end.

(** The [Link] inside the heading of a post summary. *)
Definition linkOf (summary : element) : option element :=
  match child "h3" summary with
  | Some h => List.find (isExternal "Link") (childrenOf h)
  | None => None
  end.

Definition linkTo (link : element) : option prop := propsOf link !! "to".

(** The paragraph of a post summary. *)
Definition paragraphOf (summary : element) : option element := child "p" summary.

Definition innerHtmlOf (e : element) : option string :=
  match propsOf e !! "dangerouslySetInnerHTML" with
  | Some (PHtml html) => Some html
  | _ => None
  end.

(** ** The components, from query results to element trees *)
Module View.

(** Truthiness of a nullable string: [null] and [''] are falsy. *)
Definition truthy (v : nullable) : bool :=
  match v with
  | Some s => negb (String.eqb s "")
  | None => false
  end.

(** [a || b] where [b] is a string. *)
Definition js_or (a : nullable) (b : string) : string :=
  match a with
  | Some s => if truthy a then s else b
  | None => b
  end.

Section Components.

(** [rhythm] and [scale] of [src/utils/typography.js]. *)
Variable rhythm : Q -> string.
Variable scale : Q -> gmap string cssval.

(** The global [__PATH_PREFIX__] that the build defines. *)
Variable PATH_PREFIX : string.

Definition rootPath : string := PATH_PREFIX +:+ "/".

Definition Title (title : string) : element :=
  External "Link"
    {[ "style" := PStyle {[ "boxShadow" := CssStr "none";
                            "textDecoration" := CssStr "none";
                            "color" := CssStr "inherit" ]};
       "to" := PStr "/" ]}
    [Text title].

(** The props that the first step of [Layout] adds. *)
Definition Layout_header (location : Location.t) (title : string) : element :=
  if String.eqb (Location.pathname location) rootPath then
    Host "h1"
      {[ "style" := PStyle (<[ "marginTop" := CssNum 0 ]>
                             (<[ "marginBottom" := CssStr (rhythm (3 # 2)) ]>
                                (scale (3 # 2)))) ]}
      [Title title]
  else
    Host "h3"
      {[ "style" := PStyle {[ "fontFamily" := CssStr "Montserrat, sans-serif";
                              "marginTop" := CssNum 0 ]} ]}
      [Title title].

Definition Layout_view (now : Date.t) (header : element)
    (children : list element) : element :=
  Host "div"
    {[ "style" := PStyle {[ "marginLeft" := CssStr "auto";
                            "marginRight" := CssStr "auto";
                            "maxWidth" := CssStr (rhythm (24 # 1));
                            "padding" := CssStr (rhythm (3 # 2) +:+ " " +:+ rhythm (3 # 4)) ]} ]}
    [ Host "header" ∅ [header];
      Host "main" ∅ children;
      Host "footer" ∅
        [ Text "© "; Number (Date.getFullYear now); Text ", Built with";
          Text " ";
          Host "a" {[ "href" := PStr "https://www.gatsbyjs.org" ]} [Text "Gatsby"] ] ].

(** [flow(addProps(...), view)]: the added [header] prop is passed on
    next to the props the caller gave. *)
Definition Layout (now : Date.t) (location : Location.t) (title : string)
    (children : list element) : element :=
  Layout_view now (Layout_header location title) children.

Definition PostLink_title (post : Node.t) : string :=
  js_or (Frontmatter.title (Node.frontmatter post))
        (Fields.slug (Node.fields post)).

Definition PostLink_view (post : Node.t) (title : string) : element :=
  Host "div" ∅
    [ Host "h3" {[ "style" := PStyle {[ "marginBottom" := CssStr (rhythm (1 # 4)) ]} ]}
        [ External "Link"
            {[ "style" := PStyle {[ "boxShadow" := CssStr "none" ]};
               "to" := PStr (Fields.slug (Node.fields post)) ]}
            [Text title] ];
      Host "small" ∅ [Text (Frontmatter.date (Node.frontmatter post))];
      Host "p"
        {[ "dangerouslySetInnerHTML" :=
             PHtml (js_or (Frontmatter.description (Node.frontmatter post))
                          (Node.excerpt post)) ]}
        [] ].

Definition PostLink (post : Node.t) : element :=
  PostLink_view post (PostLink_title post).

Definition Bio (data : BioData.t) : element :=
  let author := BioSiteMetadata.author (BioSite.siteMetadata (BioData.site data)) in
  Host "div"
    {[ "style" := PStyle {[ "display" := CssStr "flex";
                            "marginBottom" := CssStr (rhythm (5 # 2)) ]} ]}
    [ Host "p" ∅
        [ Text "Written by "; Host "strong" ∅ [Text author];
          Text " who lives and works in NYC." ] ].

Definition SEO_AllPosts : element :=
  External "SEO"
    {[ "title" := PStr "All posts";
       "keywords" := PStrs ["blog"; "gatsby"; "javascript"; "react"] ]}
    [].

(** The callback of [posts.map]: [<PostLink post={node} key={slug} />]. *)
Definition BlogIndex_entry (edge : Edge.t) : element :=
  let node := Edge.node edge in
  let slug := Fields.slug (Node.fields node) in
  Keyed slug (PostLink node).

Definition BlogIndex (env : Env.t) (data : Data.t) (location : Location.t) : element :=
  let siteTitle := SiteMetadata.title (Site.siteMetadata (Data.site data)) in
  let posts := AllMarkdownRemark.edges (Data.allMarkdownRemark data) in
  Layout (Env.now env) location siteTitle
    ([ SEO_AllPosts; Bio (Env.bioQuery env) ] ++ map BlogIndex_entry posts).

End Components.

End View.

(** ** The components over a store of JavaScript objects

    The query results are objects on the heap, and a component gets a
    reference to its props object.  This second embedding follows the
    same source through its reads ([props.post], [post.frontmatter], ...)
    and its allocations (the props object that React builds for an
    element, the object that the spread of [addProps] builds). *)
Module Store.

Abbreviation loc := positive.

Inductive val :=
  | VUndefined
  | VNull
  | VStr (s : string)
  | VRef (l : loc).

Inductive cell :=
  | Obj (fields : gmap string val)
  | Arr (items : list val).

Abbreviation heap := (gmap loc cell).

(** A computation that reads and extends the heap, or throws. *)
Definition M (A : Type) : Type := heap -> option (A * heap).

#[global] Instance M_ret : MRet M := fun A a h => Some (a, h).

#[global] Instance M_bind : MBind M := fun A B f m h =>
  match m h with
  | Some (a, h') => f a h'
  | None => None
  end.

Definition throw {A} : M A := fun _ => None.

(** [v.k]: reading a property of [undefined] or [null] throws; a
    property that an object does not have is [undefined]. *)
Definition get (v : val) (k : string) : M val := fun h =>
  match v with
  | VUndefined | VNull => None
  | VStr _ => Some (VUndefined, h)
  | VRef l =>
      match h !! l with
      | Some (Obj fields) => Some (default VUndefined (fields !! k), h)
      | Some (Arr _) => Some (VUndefined, h)
      | None => None
      end
  end.

(** The own properties of [v], as a spread [{...v}] copies them. *)
Definition spread (v : val) : M (gmap string val) := fun h =>
  match v with
  | VRef l =>
      match h !! l with
      | Some (Obj fields) => Some (fields, h)
      | _ => Some (∅, h)
      end
  | _ => Some (∅, h)
  end.

(** The elements of the array [v]. *)
Definition elements (v : val) : M (list val) := fun h =>
  match v with
  | VRef l =>
      match h !! l with
      | Some (Arr items) => Some (items, h)
      | _ => None
      end
  | _ => None
  end.

(** A new object. *)
Definition alloc (fields : gmap string val) : M val := fun h =>
  let l := fresh (dom h) in
  Some (VRef l, <[ l := Obj fields ]> h).

Definition truthy (v : val) : bool :=
  match v with
  | VUndefined | VNull => false
  | VStr s => negb (String.eqb s "")
  | VRef _ => true
  end.

(** [a || b] *)
Definition js_or (a b : val) : val := if truthy a then a else b.

(** A value as a child of an element: [null] and [undefined] show
    nothing, an object is not a valid child. *)
Definition asChild (v : val) : M (list element) :=
  match v with
  | VStr s => mret [Text s]
  | VUndefined | VNull => mret []
  | VRef _ => throw
  end.

(** [{[k := v]}] on the props of an element; a prop that is [null] or
    [undefined] counts as not given. *)
Definition withProp (k : string) (mk : string -> prop) (v : val)
    (props : gmap string prop) : gmap string prop :=
  match v with
  | VStr s => <[ k := mk s ]> props
  | _ => props
  end.

(** [key={v}]: React keeps ['' + v]. *)
Definition asKey (v : val) : string :=
  match v with
  | VStr s => s
  | VNull => "null"
  | VUndefined => "undefined"
  | VRef _ => "[object Object]"
  end.

(** [addProps(f)], of ad-hok: [props => ({...props, ...f(props)})]. *)
Definition addProps (f : val -> M (gmap string val)) (props : val) : M val :=
  added ← f props;
  own ← spread props;
  alloc (added ∪ own).

(** [l.map(f)], the calls made from left to right. *)
Fixpoint arrayMap {A B} (f : A -> M B) (l : list A) : M (list B) :=
  match l with
  | [] => mret []
  | a :: l =>
      b ← f a;
      bs ← arrayMap f l;
      mret (b :: bs)
  end.

(** [m] leaves every object that is on the heap as it is. *)
Definition extends {A} (m : M A) : Prop :=
  forall h a h', m h = Some (a, h') -> h ⊆ h'.

Section Components.

Variable rhythm : Q -> string.

Definition PostLink_addedProps (props : val) : M (gmap string val) :=
  post ← get props "post";
  frontmatter ← get post "frontmatter";
  title ← get frontmatter "title";
  fields ← get post "fields";
  slug ← get fields "slug";
  mret {[ "title" := js_or title slug ]}.

Definition PostLink_view (props : val) : M element :=
  post ← get props "post";
  frontmatter ← get post "frontmatter";
  date ← get frontmatter "date";
  description ← get frontmatter "description";
  fields ← get post "fields";
  slug ← get fields "slug";
  excerpt ← get post "excerpt";
  title ← get props "title";
  titleChild ← asChild title;
  dateChild ← asChild date;
  mret (Host "div" ∅
    [ Host "h3" {[ "style" := PStyle {[ "marginBottom" := CssStr (rhythm (1 # 4)) ]} ]}
        [ External "Link"
            (withProp "to" PStr slug
               {[ "style" := PStyle {[ "boxShadow" := CssStr "none" ]} ]})
            titleChild ];
      Host "small" ∅ dateChild;
      Host "p" (withProp "dangerouslySetInnerHTML" PHtml (js_or description excerpt) ∅)
        [] ]).

Definition PostLink (props : val) : M element :=
  props' ← addProps PostLink_addedProps props;
  PostLink_view props'.

(** [<PostLink post={node} key={slug} />] for one edge, rendered. *)
Definition BlogIndex_entry (edge : val) : M element :=
  node ← get edge "node";
  fields ← get node "fields";
  slug ← get fields "slug";
  props ← alloc {[ "post" := node ]};
  output ← PostLink props;
  mret (Keyed (asKey slug) output).

(** [posts.map(...)] of [BlogIndex], rendered. *)
Definition BlogIndex_entries (data : val) : M (list element) :=
  allMarkdownRemark ← get data "allMarkdownRemark";
  posts ← get allMarkdownRemark "edges";
  edges ← elements posts;
  arrayMap BlogIndex_entry edges.

End Components.

(** *** Reading a post off the heap *)

Definition field (h : heap) (v : val) (k : string) : option val :=
  fst <$> get v k h.

Definition asString (v : val) : option string :=
  match v with
  | VStr s => Some s
  | _ => None
  end.

Definition asNullable (v : val) : option nullable :=
  match v with
  | VStr s => Some (Some s)
  | VUndefined | VNull => Some None
  | VRef _ => None
  end.

(** The node that the object [v] holds on heap [h], field by field. *)
Definition readNode (h : heap) (v : val) : option Node.t :=
  excerpt ← field h v "excerpt" ≫= asString;
  fields ← field h v "fields";
  slug ← field h fields "slug" ≫= asString;
  frontmatter ← field h v "frontmatter";
  date ← field h frontmatter "date" ≫= asString;
  title ← field h frontmatter "title" ≫= asNullable;
  description ← field h frontmatter "description" ≫= asNullable;
  Some (Node.mk excerpt (Fields.mk slug) (Frontmatter.mk date title description)).

Definition readEdge (h : heap) (v : val) : option Edge.t :=
  node ← field h v "node";
  Edge.mk <$> readNode h node.

(** The edges that the query result [data] holds on heap [h]. *)
Definition readEdges (h : heap) (data : val) : option (list Edge.t) :=
  allMarkdownRemark ← field h data "allMarkdownRemark";
  posts ← field h allMarkdownRemark "edges";
  edges ← fst <$> elements posts h;
  mapM (readEdge h) edges.

End Store.

(** ** The markdown posts

    The head of every file under [content/blog], line by line, and the
    reading of its front matter: the lines between the two [---] fences,
    each of the form [key: value]. *)
Module Content.

(** The double quote character. *)
Definition dq : string := String (Ascii.ascii_of_nat 34) EmptyString.

(** [content/blog/ad-hok-intro-at-a-glance/index.md], lines 1 to 5. *)
Definition ad_hok_intro_at_a_glance : list string :=
  [ "---";
    "title: " +:+ dq +:+ "From vanilla React hooks to ad-hok: At a glance" +:+ dq;
    "date: " +:+ dq +:+ "2019-09-27T09:00:00.000Z" +:+ dq;
    "---";
    "" ].

(** [content/blog/dynamic-portal/index.md], lines 1 to 5. *)
Definition dynamic_portal : list string :=
  [ "---";
    "title: " +:+ dq +:+ "Using dynamic portals in React to “play nice with” autoplay policy" +:+ dq;
    "date: " +:+ dq +:+ "2019-06-09T20:02:38.000Z" +:+ dq;
    "---";
    "" ].

(** [content/blog/jiggle-webpack/index.md], lines 1 to 5. *)
Definition jiggle_webpack : list string :=
  [ "---";
    "title: 'Tip: “Jiggle” Webpack when it can’t resolve a new import'";
    "date: " +:+ dq +:+ "2019-05-12T13:08:38.000Z" +:+ dq;
    "---";
    "" ].

(** [content/blog/slack-personal-activity-channel/index.md], lines 1 to 5. *)
Definition slack_personal_activity_channel : list string :=
  [ "---";
    "title: " +:+ dq +:+ "Slack tip: personal activity channel" +:+ dq;
    "date: " +:+ dq +:+ "2019-05-12T13:15:38.000Z" +:+ dq;
    "---";
    "" ].

(** [content/blog/useeffectonpropchange/index.md], lines 1 to 5. *)
Definition useeffectonpropchange : list string :=
  [ "---";
    "title: " +:+ dq +:+ "Handy React hooks helper: useEffectOnPropChange()" +:+ dq;
    "date: " +:+ dq +:+ "2019-06-09T18:02:38.000Z" +:+ dq;
    "---";
    "" ].

(** [content/blog/util-proptypes/index.md], lines 1 to 5. *)
Definition util_proptypes : list string :=
  [ "---";
    "title: " +:+ dq +:+ "React best practice: util/propTypes module" +:+ dq;
    "date: " +:+ dq +:+ "2019-05-12T13:02:38.000Z" +:+ dq;
    "---";
    "" ].

(** Every post of the repository, by directory name. *)
Definition posts : list (string * list string) :=
  [ ("ad-hok-intro-at-a-glance", ad_hok_intro_at_a_glance);
    ("dynamic-portal", dynamic_portal);
    ("jiggle-webpack", jiggle_webpack);
    ("slack-personal-activity-channel", slack_personal_activity_channel);
    ("useeffectonpropchange", useeffectonpropchange);
    ("util-proptypes", util_proptypes) ].

(** A YAML scalar: quoted (a string whatever it holds) or plain. *)
Inductive scalar :=
  | Quoted (s : string)
  | Plain (s : string).

Fixpoint dropSpaces (s : string) : string :=
  match s with
  | String " "%char s' => dropSpaces s'
  | _ => s
  end.

(** [s] without its last character, when that character is [q]. *)
Fixpoint closedBy (q : ascii) (s : string) : option string :=
  match s with
  | EmptyString => None
  | String c EmptyString => if Ascii.eqb c q then Some EmptyString else None
  | String c s' => String c <$> closedBy q s'
  end.

Definition readScalar (s : string) : scalar :=
  match s with
  | String q rest =>
      if Ascii.eqb q (Ascii.ascii_of_nat 34) || Ascii.eqb q "'"%char then
        match closedBy q rest with
        | Some body => Quoted body
        | None => Plain s
        end
      else Plain s
  | EmptyString => Plain s
  end.

(** [key: value] *)
Definition readField (line : string) : option (string * scalar) :=
  match String.index 0 ":" line with
  | Some i =>
      Some (String.substring 0 i line,
            readScalar (dropSpaces
              (String.substring (S i) (String.length line - S i) line)))
  | None => None
  end.

(** The fields up to the closing fence. *)
Fixpoint readFields (lines : list string) : option (list (string * scalar)) :=
  match lines with
  | [] => None
  | line :: lines' =>
      if String.eqb line "---" then Some []
      else
        match readField line, readFields lines' with
        | Some f, Some fs => Some (f :: fs)
        | _, _ => None
        end
  end.

Definition frontMatter (lines : list string) : option (list (string * scalar)) :=
  match lines with
  | line :: lines' => if String.eqb line "---" then readFields lines' else None
  | [] => None
  end.

Definition digit (c : ascii) : option nat :=
  let n := Ascii.nat_of_ascii c in
  if (48 <=? n)%nat && (n <=? 57)%nat then Some (n - 48)%nat else None.

(** The number written by a list of digits. *)
Definition number (cs : list ascii) : option nat :=
  foldl (fun acc c =>
           match acc, digit c with
           | Some n, Some d => Some (10 * n + d)%nat
           | _, _ => None
           end)
        (Some 0%nat) cs.

Definition leapYear (y : nat) : bool :=
  ((y mod 4 =? 0) && negb (y mod 100 =? 0) || (y mod 400 =? 0))%nat.

Definition daysInMonth (y m : nat) : nat :=
  match m with
  | 2 => if leapYear y then 29 else 28
  | 4 | 6 | 9 | 11 => 30
  | _ => 31
  end%nat.

(** An ISO 8601 timestamp in the form [YYYY-MM-DDTHH:mm:ss.sssZ]. *)
Definition isISO8601 (s : string) : bool :=
  match String.list_ascii_of_string s with
  | [y1; y2; y3; y4; "-"; m1; m2; "-"; d1; d2; "T";
     h1; h2; ":"; n1; n2; ":"; s1; s2; "."; f1; f2; f3; "Z"]%char =>
      match number [y1; y2; y3; y4], number [m1; m2], number [d1; d2],
            number [h1; h2], number [n1; n2], number [s1; s2],
            number [f1; f2; f3] with
      | Some y, Some m, Some d, Some h, Some n, Some sec, Some _ =>
          ((1 <=? m) && (m <=? 12) && (1 <=? d) && (d <=? daysInMonth y m) &&
           (h <=? 23) && (n <=? 59) && (sec <=? 59))%nat
      | _, _, _, _, _, _, _ => false
      end
  | _ => false
  end.

(** The front matter has the fields [title] and [date], in this order
    and no other, both strings, the date an ISO 8601 timestamp. *)
Definition wellFormed (lines : list string) : bool :=
  match frontMatter lines with
  | Some [(k1, Quoted _); (k2, Quoted date)] =>
      String.eqb k1 "title" && String.eqb k2 "date" && isISO8601 date
  | _ => false
  end.

End Content.

(** ** Sample inputs

    Values for the parameters and inputs of the components, used where a
    statement is checked on a concrete input. *)
Module Sample.

(** A typography whose baseline is 1.62rem. *)
Definition rhythm (lines : Q) : string :=
  match lines with
  | 1 # 4 => "0.405rem"
  | 3 # 4 => "1.215rem"
  | 3 # 2 => "2.43rem"
  | 5 # 2 => "4.05rem"
  | 24 # 1 => "38.88rem"
  | _ => "1.62rem"
  end%Q.

Definition scale (value : Q) : gmap string cssval :=
  {[ "fontSize" := CssStr "2.82843rem"; "lineHeight" := CssStr "3.24rem" ]}.

Definition PATH_PREFIX : string := "".

Definition home : Location.t := Location.mk "/".

(** 2019-12-31T23:59:59.999Z and one millisecond later, on a host
    whose local time is UTC. *)
Definition lastOf2019 : Date.t := Date.mk 1577836799999 0.
Definition firstOf2020 : Date.t := Date.mk 1577836800000 0.

Definition bio : BioData.t :=
  BioData.mk (BioSite.mk (BioSiteMetadata.mk "Julian Rosse" (Social.mk (Some "helixbass")))).

Definition bioNoTwitter : BioData.t :=
  BioData.mk (BioSite.mk (BioSiteMetadata.mk "Julian Rosse" (Social.mk None))).

Definition adHokIntro : Node.t :=
  Node.mk "ad-hok is a library that lets you use React hooks in a functional pipeline style."
    (Fields.mk "/ad-hok-intro-at-a-glance/")
    (Frontmatter.mk "September 27, 2019"
       (Some "From vanilla React hooks to ad-hok: At a glance") None).

Definition dynamicPortal : Node.t :=
  Node.mk "The problem"
    (Fields.mk "/dynamic-portal/")
    (Frontmatter.mk "June 09, 2019" (Some "") (Some "<em>Portals</em> and autoplay")).

Definition data : Data.t :=
  Data.mk (Site.mk (SiteMetadata.mk "skribblin"))
    (AllMarkdownRemark.mk [Edge.mk adHokIntro; Edge.mk dynamicPortal]).

Definition env : Env.t := Env.mk lastOf2019 bio.

(** [adHokIntro] is the later of the two posts. *)
Definition before (a b : Node.t) : Prop :=
  a = adHokIntro /\ b = dynamicPortal.

(** A heap holding [dynamicPortal] as the object at 1 and the props
    [{post: <1>}] at 4. *)
Definition heap : Store.heap :=
  {[ 1%positive := Store.Obj
       {[ "excerpt" := Store.VStr "The problem";
          "fields" := Store.VRef 2%positive;
          "frontmatter" := Store.VRef 3%positive ]};
     2%positive := Store.Obj {[ "slug" := Store.VStr "/dynamic-portal/" ]};
     3%positive := Store.Obj
       {[ "date" := Store.VStr "June 09, 2019";
          "title" := Store.VStr "";
          "description" := Store.VStr "<em>Portals</em> and autoplay" ]};
     4%positive := Store.Obj {[ "post" := Store.VRef 1%positive ]};
     5%positive := Store.Obj {[ "node" := Store.VRef 1%positive ]};
     6%positive := Store.Arr [Store.VRef 5%positive];
     7%positive := Store.Obj {[ "edges" := Store.VRef 6%positive ]};
     8%positive := Store.Obj {[ "allMarkdownRemark" := Store.VRef 7%positive ]} ]}.

End Sample.

(** ** The whole index page over the store

    [Layout] and [BlogIndex] followed through their reads, as [PostLink]
    is in [Store].  Elements are not values of the store: the [header]
    that [Layout] adds to its props and the [children] it was given are
    carried beside the props object. *)
Module Page.
Import Store.

(** [undefined] and [null], the values whose properties cannot be read. *)
Definition isNullish (v : val) : bool :=
  match v with
  | VUndefined | VNull => true
  | _ => false
  end.

(** The text that a value shows as a child: a string shows itself,
    [undefined] and [null] show nothing. *)
Definition asText (v : val) : list string :=
  match v with
  | VStr s => [s]
  | _ => []
  end.

(** The edge [edge] has no node, or a node without [frontmatter] or
    without [fields]. *)
Definition lacksData (h : heap) (edge : val) : Prop :=
  isNullish edge = true \/
  exists node,
    field h edge "node" = Some node /\
    (isNullish node = true \/
     exists fm fs,
       field h node "frontmatter" = Some fm /\
       field h node "fields" = Some fs /\
       isNullish fm || isNullish fs = true).

#[global] Instance val_eq_dec : EqDecision val.
Proof. solve_decision. Defined.

(** [a === b]: strings by their characters, objects by reference. *)
Definition strictEq (a b : val) : bool := bool_decide (a = b).

Section Components.

Variable rhythm : Q -> string.
Variable scale : Q -> gmap string cssval.
Variable PATH_PREFIX : string.

Definition Title (title : val) : M element :=
  titleChild ← asChild title;
  mret (External "Link"
          {[ "style" := PStyle {[ "boxShadow" := CssStr "none";
                                  "textDecoration" := CssStr "none";
                                  "color" := CssStr "inherit" ]};
             "to" := PStr "/" ]}
          titleChild).

(** The [header] that the first step of [Layout] computes. *)
Definition Layout_header (props : val) : M element :=
  location ← get props "location";
  title ← get props "title";
  pathname ← get location "pathname";
  link ← Title title;
  mret (if strictEq pathname (VStr (View.rootPath PATH_PREFIX)) then
          Host "h1"
            {[ "style" := PStyle (<[ "marginTop" := CssNum 0 ]>
                                   (<[ "marginBottom" := CssStr (rhythm (3 # 2)) ]>
                                      (scale (3 # 2)))) ]}
            [link]
        else
          Host "h3"
            {[ "style" := PStyle {[ "fontFamily" := CssStr "Montserrat, sans-serif";
                                    "marginTop" := CssNum 0 ]} ]}
            [link]).

(** [flow(addProps(...), view)]: the spread of [addProps] builds a new
    props object next to which the header is kept. *)
Definition Layout (now : Date.t) (props : val) (children : list element) : M element :=
  header ← Layout_header props;
  own ← spread props;
  _ ← alloc own;
  mret (View.Layout_view rhythm now header children).

Definition BlogIndex (env : Env.t) (props : val) : M element :=
  data ← get props "data";
  location ← get props "location";
  site ← get data "site";
  siteMetadata ← get site "siteMetadata";
  siteTitle ← get siteMetadata "title";
  entries ← BlogIndex_entries rhythm data;
  layoutProps ← alloc {[ "location" := location; "title" := siteTitle ]};
  Layout (Env.now env) layoutProps
    ([View.SEO_AllPosts; View.Bio rhythm (Env.bioQuery env)] ++ entries).

End Components.

(** *** Reading the props of the page off the heap *)

Definition readLocation (h : heap) (v : val) : option Location.t :=
  Location.mk <$> (field h v "pathname" ≫= asString).

Definition readData (h : heap) (v : val) : option Data.t :=
  site ← field h v "site";
  siteMetadata ← field h site "siteMetadata";
  title ← field h siteMetadata "title" ≫= asString;
  edges ← readEdges h v;
  Some (Data.mk (Site.mk (SiteMetadata.mk title)) (AllMarkdownRemark.mk edges)).

End Page.

(** ** More sample inputs *)
Module SamplePage.

(** [Sample.heap] with the rest of the query result and the props of the
    page: the location at 9, the site at 10 and 11, the data at 8 again,
    now with its site, and the props of [BlogIndex] at 12. *)
Definition heap : Store.heap :=
  <[ 12%positive := Store.Obj {[ "data" := Store.VRef 8%positive;
                                 "location" := Store.VRef 9%positive ]} ]>
  (<[ 11%positive := Store.Obj {[ "title" := Store.VStr "skribblin" ]} ]>
  (<[ 10%positive := Store.Obj {[ "siteMetadata" := Store.VRef 11%positive ]} ]>
  (<[ 9%positive := Store.Obj {[ "pathname" := Store.VStr "/" ]} ]>
  (<[ 8%positive := Store.Obj {[ "allMarkdownRemark" := Store.VRef 7%positive;
                                 "site" := Store.VRef 10%positive ]} ]>
     Sample.heap)))).

(** [heap] with props for [Layout] at 13. *)
Definition heapLayout : Store.heap :=
  <[ 13%positive := Store.Obj {[ "location" := Store.VRef 9%positive;
                                 "title" := Store.VStr "skribblin" ]} ]> heap.

(** [Sample.heap], whose data has no [site], with props for [BlogIndex]
    at 12. *)
Definition heapNoSite : Store.heap :=
  <[ 12%positive := Store.Obj {[ "data" := Store.VRef 8%positive;
                                 "location" := Store.VRef 9%positive ]} ]>
  (<[ 9%positive := Store.Obj {[ "pathname" := Store.VStr "/" ]} ]> Sample.heap).


(** A query result without posts. *)
Definition dataNoPosts : Data.t :=
  Data.mk (Site.mk (SiteMetadata.mk "skribblin")) (AllMarkdownRemark.mk []).


(** The query result that [heap] holds. *)
Definition data : Data.t :=
  Data.mk (Site.mk (SiteMetadata.mk "skribblin"))
    (AllMarkdownRemark.mk [Edge.mk Sample.dynamicPortal]).

(** A heap whose only post has no [frontmatter]. *)
Definition heapNoFrontmatter : Store.heap :=
  {[ 1%positive := Store.Obj
       {[ "excerpt" := Store.VStr "The problem";
          "fields" := Store.VRef 2%positive ]};
     2%positive := Store.Obj {[ "slug" := Store.VStr "/dynamic-portal/" ]};
     4%positive := Store.Obj {[ "post" := Store.VRef 1%positive ]};
     5%positive := Store.Obj {[ "node" := Store.VRef 1%positive ]};
     6%positive := Store.Arr [Store.VRef 5%positive];
     7%positive := Store.Obj {[ "edges" := Store.VRef 6%positive ]};
     8%positive := Store.Obj {[ "allMarkdownRemark" := Store.VRef 7%positive ]} ]}.

(** A heap whose only post has empty [frontmatter] and [fields] and no
    [excerpt]. *)
Definition heapBarePost : Store.heap :=
  {[ 1%positive := Store.Obj
       {[ "fields" := Store.VRef 2%positive;
          "frontmatter" := Store.VRef 3%positive ]};
     2%positive := Store.Obj ∅;
     3%positive := Store.Obj ∅;
     4%positive := Store.Obj {[ "post" := Store.VRef 1%positive ]} ]}.

End SamplePage.

(** ** The effects of [useEffectOnPropChange]

    The helpers of [content/blog/useeffectonpropchange/index.md].  What
    is embedded is the function that each helper hands to [useEffect],
    applied to the props of the render and to what [usePrevious] returned
    for it ([None] on the first render); when React runs it is not.  A
    props object is a map from names to values; an effect gives [None]
    where the source returns [null] without calling the callback. *)
Module PropChange.
Import Store.

Abbreviation props := (gmap string val).

(** [props[name]] *)
Definition prop (p : props) (name : string) : val :=
  default VUndefined (p !! name).

(** The first argument of the helpers: a prop name or an array of them. *)
Inductive changeProps :=
  | Name (name : string)
  | Names (names : list string).

(** [isArray(maybeArray) ? maybeArray : [maybeArray]] *)
Definition ensureArray (maybeArray : changeProps) : list string :=
  match maybeArray with
  | Names names => names
  | Name name => [name]
  end.

(** [find] of lodash: the first element that the predicate accepts, or
    [undefined]. *)
Definition find (names : list string) (predicate : string -> bool) : option string :=
  List.find predicate names.

(** Truthiness of what [find] returned: [undefined] and the empty name
    are falsy. *)
Definition found (changed : option string) : bool :=
  match changed with
  | Some name => negb (String.eqb name "")
  | None => false
  end.

(** [usePrevious(props) || {}] *)
Definition orEmpty (previous : option props) : props := default ∅ previous.

Section Effects.

(** What the callback returns. *)
Variable R : Type.

(** [find(ensureArray(changeProps), changeProp =>
      prevProps[changeProp] !== props[changeProp])] *)
Definition changed (names : changeProps) (p prevProps : props) : option string :=
  find (ensureArray names)
       (fun changeProp => negb (Page.strictEq (prop prevProps changeProp) (prop p changeProp))).

(** The effect of the first [useEffectOnPropChange]. *)
Definition useEffectOnPropChange (names : changeProps)
    (callback : props -> props -> R) (p : props) (previous : option props) : option R :=
  let prevProps := orEmpty previous in
  if negb (found (changed names p prevProps)) then None
  else Some (callback p prevProps).

(** The effect of [useEffectOnPropChangeWhen]; [condition] is [None] when
    the argument is left out, and the default [() => true] is taken. *)
Definition useEffectOnPropChangeWhen (condition : option (props -> props -> bool))
    (names : changeProps) (callback : props -> props -> R) (p : props)
    (previous : option props) : option R :=
  let condition := default (fun _ _ => true) condition in
  let prevProps := orEmpty previous in
  if negb (found (changed names p prevProps)) then None
  else if negb (condition p prevProps) then None
  else Some (callback p prevProps).



End Effects.

End PropChange.

(** * Properties *)

Import View.

Lemma truthy_true (v : nullable) :
  truthy v = true <-> exists s, v = Some s /\ s <> "".
Proof.
  destruct v as [s|]; simpl.
  - rewrite negb_true_iff. split.
    + intros H. exists s. split; [done|]. intros ->. discriminate.
    + intros (s' & [= <-] & Hne). apply String.eqb_neq. exact Hne.
  - split; [discriminate | intros (s & H & _); discriminate].
Qed.

Lemma js_or_truthy (s b : string) : s <> "" -> js_or (Some s) b = s.
Proof.
  intros Hne. unfold js_or, truthy.
  apply String.eqb_neq in Hne. by rewrite Hne.
Qed.

Lemma js_or_falsy (a : nullable) (b : string) :
  a = None \/ a = Some "" -> js_or a b = b.
Proof. by intros [-> | ->]. Qed.

(** ** The clock *)

(** [yearOfDay] meets ECMAScript's description of the year of a day:
    the year whose first day is the last one not after [d]. *)
Lemma yearOfDay_spec (d : Z) :
  Date.DayFromYear (Date.yearOfDay d) <= d < Date.DayFromYear (Date.yearOfDay d + 1).
Proof.
  unfold Date.DayFromYear, Date.yearOfDay. cbv zeta.
  match goal with
  | |- context [Z.ltb ?a ?b] => destruct (Z.ltb_spec a b)
  end; Z.div_mod_to_equations; lia.
Qed.

Lemma YearFromTime_spec (tv : Z) :
  Date.TimeFromYear (Date.YearFromTime tv) <= tv <
  Date.TimeFromYear (Date.YearFromTime tv + 1).
Proof.
  unfold Date.TimeFromYear, Date.YearFromTime.
  pose proof (yearOfDay_spec (Date.Day tv)) as Hday.
  unfold Date.Day, Date.msPerDay in *. Z.div_mod_to_equations. lia.
Qed.

(** ** The components *)

Section ComponentProperties.

Variable rhythm : Q -> string.
Variable scale : Q -> gmap string cssval.
Variable PATH_PREFIX : string.

Local Abbreviation Layout := (Layout rhythm scale PATH_PREFIX).
Local Abbreviation Layout_header := (Layout_header rhythm scale PATH_PREFIX).
Local Abbreviation PostLink := (PostLink rhythm).
Local Abbreviation Bio := (Bio rhythm).
Local Abbreviation BlogIndex := (BlogIndex rhythm scale PATH_PREFIX).
Local Abbreviation BlogIndex_entry := (BlogIndex_entry rhythm).
Local Abbreviation rootPath := (rootPath PATH_PREFIX).

Lemma headerOf_Layout now location title children :
  headerOf (Layout now location title children) = Some (Layout_header location title).
Proof. reflexivity. Qed.

Lemma mainOf_Layout now location title children :
  mainOf (Layout now location title children) = children.
Proof. reflexivity. Qed.

Lemma footerOf_Layout now location title children :
  footerOf (Layout now location title children) =
    [ Text "© "; Number (Date.getFullYear now); Text ", Built with"; Text " ";
      Host "a" {[ "href" := PStr "https://www.gatsbyjs.org" ]} [Text "Gatsby"] ].
Proof. reflexivity. Qed.

Lemma filter_isKeyed_entries (posts : list Edge.t) :
  List.filter isKeyed (map BlogIndex_entry posts) = map BlogIndex_entry posts.
Proof. induction posts as [|e posts IH]; simpl; [done | by rewrite IH]. Qed.

Lemma postEntries_BlogIndex env data location :
  postEntries (BlogIndex env data location) =
    map BlogIndex_entry (AllMarkdownRemark.edges (Data.allMarkdownRemark data)).
Proof.
  unfold postEntries, BlogIndex. rewrite mainOf_Layout. simpl.
  apply filter_isKeyed_entries.
Qed.

Lemma Sorted_map {A B} (f : A -> B) (R : A -> A -> Prop) (R' : B -> B -> Prop)
    (l : list A) :
  (forall a b, R a b -> R' (f a) (f b)) ->
  Sorted R l -> Sorted R' (map f l).
Proof.
  intros Hf Hs. induction Hs as [|a l Hs IH Hhd]; simpl; constructor.
  - exact IH.
  - destruct Hhd as [|b l Hab]; simpl; constructor. by apply Hf.
Qed.

(** C1: whatever the order [before] by which the data layer sorts the
    nodes (date descending), the list that [BlogIndex] shows has exactly
    one [PostLink] entry per node of [edges], in the order of [edges];
    it is therefore sorted by [before] when [edges] is. *)
Theorem BlogIndex_one_entry_per_post
    (before : Node.t -> Node.t -> Prop) env data location :
  Sorted before
    (map Edge.node (AllMarkdownRemark.edges (Data.allMarkdownRemark data))) ->
  postEntries (BlogIndex env data location) =
    map BlogIndex_entry (AllMarkdownRemark.edges (Data.allMarkdownRemark data)) /\
  length (postEntries (BlogIndex env data location)) =
    length (AllMarkdownRemark.edges (Data.allMarkdownRemark data)) /\
  (forall i edge,
      AllMarkdownRemark.edges (Data.allMarkdownRemark data) !! i = Some edge ->
      entryOutput <$> postEntries (BlogIndex env data location) !! i =
        Some (PostLink (Edge.node edge))) /\
  Sorted (fun e1 e2 => exists p1 p2,
              e1 = BlogIndex_entry p1 /\ e2 = BlogIndex_entry p2 /\
              before (Edge.node p1) (Edge.node p2))
         (postEntries (BlogIndex env data location)).
Proof.
  intros Hsorted. rewrite postEntries_BlogIndex.
  split; [done|]. split; [by rewrite length_map|]. split.
  - intros i edge Hi. by rewrite list_lookup_fmap, Hi.
  - set (posts := AllMarkdownRemark.edges (Data.allMarkdownRemark data)) in *.
    assert (Hs : Sorted (fun p1 p2 => before (Edge.node p1) (Edge.node p2)) posts).
    { clearbody posts. induction posts as [|p posts IH]; constructor.
      - apply IH. by inversion Hsorted.
      - inversion Hsorted as [|? ? _ Hhd]; subst.
        destruct posts as [|q posts]; constructor. by inversion Hhd. }
    eapply Sorted_map; [|exact Hs]. intros a b Hab. by exists a, b.
Qed.

(** C2: in the header of [Layout] the site title is always a [Link]
    to ["/"] around the title; the heading is an [h1] whose style is
    [scale(1.5)] (with the two margins set on top of it) exactly when
    [location.pathname] is [rootPath], and an [h3] that takes nothing
    from [scale] otherwise. *)
Theorem Layout_header_by_route now location title children :
  exists h link,
    headerOf (Layout now location title children) = Some h /\
    childrenOf h = [link] /\
    isExternal "Link" link = true /\
    linkTo link = Some (PStr "/") /\
    childrenOf link = [Text title] /\
    (tagOf h = Some "h1" <-> Location.pathname location = rootPath) /\
    (tagOf h = Some "h3" <-> Location.pathname location <> rootPath) /\
    (Location.pathname location = rootPath ->
       styleOf h = Some (<[ "marginTop" := CssNum 0 ]>
                          (<[ "marginBottom" := CssStr (rhythm (3 # 2)) ]>
                             (scale (3 # 2)))) /\
       forall k st, styleOf h = Some st ->
                    k <> "marginTop" -> k <> "marginBottom" ->
                    st !! k = scale (3 # 2) !! k) /\
    (Location.pathname location <> rootPath ->
       styleOf h = Some {[ "fontFamily" := CssStr "Montserrat, sans-serif";
                           "marginTop" := CssNum 0 ]}).
Proof.
  exists (Layout_header location title), (Title title).
  rewrite headerOf_Layout. unfold Layout_header.
  destruct (String.eqb_spec (Location.pathname location) rootPath) as [Heq | Hne].
  - repeat split; try done.
    intros k st Hst Hk1 Hk2.
    change (styleOf _) with
      (Some (<[ "marginTop" := CssNum 0 ]>
               (<[ "marginBottom" := CssStr (rhythm (3 # 2)) ]> (scale (3 # 2)))))
      in Hst.
    injection Hst as <-. by rewrite !lookup_insert_ne.
  - repeat split; try done.
Qed.

(** C4: the paragraph of a post summary carries the frontmatter
    description when there is a non-empty one, and the excerpt when the
    description is missing or empty. *)
Theorem PostLink_summary_description_or_excerpt (post : Node.t) :
  exists p html,
    paragraphOf (PostLink post) = Some p /\
    innerHtmlOf p = Some html /\
    (forall d, Frontmatter.description (Node.frontmatter post) = Some d ->
               d <> "" -> html = d) /\
    (Frontmatter.description (Node.frontmatter post) = None \/
     Frontmatter.description (Node.frontmatter post) = Some "" ->
     html = Node.excerpt post).
Proof.
  eexists _, (js_or (Frontmatter.description (Node.frontmatter post))
                    (Node.excerpt post)).
  split; [reflexivity|]. split; [reflexivity|]. split.
  - intros d Hd Hne. rewrite Hd. by apply js_or_truthy.
  - apply js_or_falsy.
Qed.

(** C9: the text of the summary link is the slug when the frontmatter
    title is missing or empty, and the title itself when it is a
    non-empty string. *)
Theorem PostLink_title_or_slug (post : Node.t) :
  exists link text,
    linkOf (PostLink post) = Some link /\
    childrenOf link = [Text text] /\
    (Frontmatter.title (Node.frontmatter post) = None \/
     Frontmatter.title (Node.frontmatter post) = Some "" ->
     text = Fields.slug (Node.fields post)) /\
    (forall t, Frontmatter.title (Node.frontmatter post) = Some t ->
               t <> "" -> text = t).
Proof.
  eexists _, (PostLink_title post).
  split; [reflexivity|]. split; [reflexivity|]. unfold PostLink_title. split.
  - apply js_or_falsy.
  - intros t Ht Hne. rewrite Ht. by apply js_or_truthy.
Qed.

(** C6: two results of [bioQuery] with the same author give the same
    [Bio], whatever their social fields are. *)
Theorem Bio_depends_on_author_only (d1 d2 : BioData.t) :
  BioSiteMetadata.author (BioSite.siteMetadata (BioData.site d1)) =
  BioSiteMetadata.author (BioSite.siteMetadata (BioData.site d2)) ->
  Bio d1 = Bio d2.
Proof. intros Heq. unfold Bio. by rewrite Heq. Qed.

Lemma map_entryKey_entries (posts : list Edge.t) :
  map entryKey (map BlogIndex_entry posts) =
    Some <$> (map (fun edge => Fields.slug (Node.fields (Edge.node edge))) posts).
Proof. induction posts as [|e posts IH]; simpl; [done | by rewrite IH]. Qed.

(** C5: the slug of a post is the target of its summary link and the
    key of its list entry; when the slugs of the posts are pairwise
    distinct, so are the keys of the entries. *)
Theorem slug_is_route_and_key env data location :
  NoDup (map (fun edge => Fields.slug (Node.fields (Edge.node edge)))
             (AllMarkdownRemark.edges (Data.allMarkdownRemark data))) ->
  (forall post : Node.t, exists link,
      linkOf (PostLink post) = Some link /\
      linkTo link = Some (PStr (Fields.slug (Node.fields post)))) /\
  map entryKey (postEntries (BlogIndex env data location)) =
    map (fun edge => Some (Fields.slug (Node.fields (Edge.node edge))))
        (AllMarkdownRemark.edges (Data.allMarkdownRemark data)) /\
  NoDup (map entryKey (postEntries (BlogIndex env data location))).
Proof.
  intros Hnodup. rewrite postEntries_BlogIndex, map_entryKey_entries.
  split; [|split].
  - intros post. eexists. split; reflexivity.
  - by rewrite <- list_fmap_compose.
  - by apply (NoDup_fmap_2 Some).
Qed.

Lemma rawHtml_Layout_header location title :
  rawHtml (Layout_header location title) = [].
Proof. unfold Layout_header. by destruct (String.eqb _ _). Qed.

Lemma rawHtml_Host_no_inner tag props children :
  props !! "dangerouslySetInnerHTML" = None ->
  rawHtml (Host tag props children) = flat_map rawHtml children.
Proof. intros Hnone. simpl. by rewrite Hnone. Qed.

Lemma rawHtml_Layout now location title children :
  rawHtml (Layout now location title children) = flat_map rawHtml children.
Proof.
  unfold Layout, Layout_view.
  rewrite rawHtml_Host_no_inner by reflexivity.
  cbn [flat_map]. rewrite (rawHtml_Host_no_inner "header") by reflexivity.
  rewrite (rawHtml_Host_no_inner "main") by reflexivity.
  rewrite (rawHtml_Host_no_inner "footer") by reflexivity.
  cbn [flat_map]. rewrite rawHtml_Layout_header.
  rewrite (rawHtml_Host_no_inner "a") by reflexivity.
  simpl. by rewrite app_nil_r.
Qed.

Lemma rawHtml_entries (posts : list Edge.t) :
  flat_map rawHtml (map BlogIndex_entry posts) =
    map (fun edge =>
           js_or (Frontmatter.description (Node.frontmatter (Edge.node edge)))
                 (Node.excerpt (Edge.node edge)))
        posts.
Proof. induction posts as [|e posts IH]; simpl; [done | by rewrite IH]. Qed.

(** C10: the paragraph of a post summary has no children and hands the
    chosen body (description or excerpt) to [dangerouslySetInnerHTML]
    unchanged; it is the only raw HTML of the summary and is not among
    its text children (the link text and the date), and the raw HTML of
    the index page is the list of these bodies, one per post. *)
Theorem PostLink_summary_is_raw_html (post : Node.t) :
  textOf (PostLink post) =
    [PostLink_title post; Frontmatter.date (Node.frontmatter post)] /\
  paragraphOf (PostLink post) =
    Some (Host "p"
            {[ "dangerouslySetInnerHTML" :=
                 PHtml (js_or (Frontmatter.description (Node.frontmatter post))
                              (Node.excerpt post)) ]}
            []) /\
  rawHtml (PostLink post) =
    [js_or (Frontmatter.description (Node.frontmatter post)) (Node.excerpt post)] /\
  forall env data location,
    rawHtml (BlogIndex env data location) =
      map (fun edge =>
             js_or (Frontmatter.description (Node.frontmatter (Edge.node edge)))
                   (Node.excerpt (Edge.node edge)))
          (AllMarkdownRemark.edges (Data.allMarkdownRemark data)).
Proof.
  split; [reflexivity|]. split; [reflexivity|]. split; [reflexivity|].
  intros env data location.
  unfold BlogIndex. rewrite rawHtml_Layout. simpl. apply rawHtml_entries.
Qed.

Lemma Layout_same_year now1 now2 location title children :
  Layout now1 location title children = Layout now2 location title children <->
  Date.getFullYear now1 = Date.getFullYear now2.
Proof.
  split.
  - intros Heq. apply (f_equal footerOf) in Heq.
    rewrite !footerOf_Layout in Heq. congruence.
  - intros Heq. unfold Layout, Layout_view. by rewrite Heq.
Qed.

(** C3 (amended): on the same props and the same static query result,
    two evaluations of [Layout] or of [BlogIndex] give the same tree
    exactly when the host's clock reads the same year at both, the year
    shown in the footer; the post entries ([PostLink]) do not read the
    clock at all. *)
Theorem render_reads_clock_year_only now1 now2 bio data location title children :
  (Layout now1 location title children = Layout now2 location title children <->
   Date.getFullYear now1 = Date.getFullYear now2) /\
  (BlogIndex (Env.mk now1 bio) data location =
   BlogIndex (Env.mk now2 bio) data location <->
   Date.getFullYear now1 = Date.getFullYear now2) /\
  postEntries (BlogIndex (Env.mk now1 bio) data location) =
  postEntries (BlogIndex (Env.mk now2 bio) data location).
Proof.
  split; [apply Layout_same_year|]. split.
  - unfold BlogIndex. simpl. apply Layout_same_year.
  - by rewrite !postEntries_BlogIndex.
Qed.

End ComponentProperties.

(** ** The store: a render only reads and allocates *)
Module StoreProperties.
Import Store.

Lemma extends_ret {A} (a : A) : extends (mret a).
Proof. intros h a' h' [= _ <-]. done. Qed.

Lemma extends_throw {A} : extends (@throw A).
Proof. intros h a h' [=]. Qed.

Lemma extends_bind {A B} (m : M A) (f : A -> M B) :
  extends m -> (forall a, extends (f a)) -> extends (m ≫= f).
Proof.
  intros Hm Hf h b h'. unfold mbind, M_bind.
  destruct (m h) as [[a h1]|] eqn:Hmh; [|done].
  intros Hfa. transitivity h1; [by eapply Hm | by eapply Hf].
Qed.

Lemma get_unchanged v k h a h' : get v k h = Some (a, h') -> h' = h.
Proof.
  unfold get. destruct v as [| |s|l]; try congruence.
  destruct (h !! l) as [[fields|items]|]; congruence.
Qed.

Lemma extends_get v k : extends (get v k).
Proof. intros h a h' Hget. by rewrite (get_unchanged _ _ _ _ _ Hget). Qed.

Lemma extends_spread v : extends (spread v).
Proof.
  intros h a h'. unfold spread. destruct v as [| |s|l]; try (by intros [= _ <-]).
  destruct (h !! l) as [[fields|items]|]; by intros [= _ <-].
Qed.

Lemma extends_elements v : extends (elements v).
Proof.
  intros h a h'. unfold elements. destruct v as [| |s|l]; try done.
  destruct (h !! l) as [[fields|items]|]; try done. by intros [= _ <-].
Qed.

Lemma alloc_fresh (h : heap) : h !! fresh (dom h) = None.
Proof. apply not_elem_of_dom, is_fresh. Qed.

Lemma extends_alloc fields : extends (alloc fields).
Proof.
  intros h a h'. unfold alloc. intros [= _ <-].
  apply insert_subseteq, alloc_fresh.
Qed.

Lemma extends_asChild v : extends (asChild v).
Proof. destruct v; simpl; auto using @extends_ret, @extends_throw. Qed.

Lemma extends_arrayMap {A B} (f : A -> M B) (l : list A) :
  (forall a, extends (f a)) -> extends (arrayMap f l).
Proof.
  intros Hf. induction l as [|a l IH]; simpl.
  - apply extends_ret.
  - apply extends_bind; [apply Hf|]. intros b.
    apply extends_bind; [apply IH|]. intros bs. apply extends_ret.
Qed.

Create HintDb extends.
#[local] Hint Resolve extends_ret extends_throw extends_get extends_spread
  extends_elements extends_alloc extends_asChild : extends.
#[local] Hint Extern 1 (extends (_ ≫= _)) => apply extends_bind; [|intros ?] : extends.

(** *** Reads *)

Lemma get_field h v k a : field h v k = Some a -> get v k h = Some (a, h).
Proof.
  unfold field. destruct (get v k h) as [[a' h']|] eqn:Hget; [|done].
  intros [= <-]. by rewrite (get_unchanged _ _ _ _ _ Hget).
Qed.

Lemma bind_get {B} h v k a (f : val -> M B) :
  field h v k = Some a -> (get v k ≫= f) h = f a h.
Proof. intros Hf. unfold mbind, M_bind. by rewrite (get_field _ _ _ _ Hf). Qed.

Lemma field_weaken h h' v k a :
  field h v k = Some a -> h ⊆ h' -> field h' v k = Some a.
Proof.
  unfold field, get. intros Hf Hsub. destruct v as [| |s|l]; try done.
  destruct (h !! l) as [c|] eqn:Hl; [|done].
  rewrite (lookup_weaken _ _ _ _ Hl Hsub). by destruct c.
Qed.

(** What [readNode] has read when it gives a node. *)
Lemma readNode_Some h v node :
  readNode h v = Some node <->
  exists fields frontmatter title description,
    field h v "excerpt" = Some (VStr (Node.excerpt node)) /\
    field h v "fields" = Some fields /\
    field h fields "slug" = Some (VStr (Fields.slug (Node.fields node))) /\
    field h v "frontmatter" = Some frontmatter /\
    field h frontmatter "date" =
      Some (VStr (Frontmatter.date (Node.frontmatter node))) /\
    field h frontmatter "title" = Some title /\
    asNullable title = Some (Frontmatter.title (Node.frontmatter node)) /\
    field h frontmatter "description" = Some description /\
    asNullable description = Some (Frontmatter.description (Node.frontmatter node)).
Proof.
  unfold readNode. split.
  - intros Hread.
    destruct (field h v "excerpt") as [[| |e|]|] eqn:He; try done. simpl in Hread.
    destruct (field h v "fields") as [fields|] eqn:Hf; [|done]. simpl in Hread.
    destruct (field h fields "slug") as [[| |sl|]|] eqn:Hs; try done. simpl in Hread.
    destruct (field h v "frontmatter") as [fm|] eqn:Hfm; [|done]. simpl in Hread.
    destruct (field h fm "date") as [[| |d|]|] eqn:Hd; try done. simpl in Hread.
    destruct (field h fm "title") as [t|] eqn:Ht; [|done]. simpl in Hread.
    destruct (asNullable t) as [t'|] eqn:Ht'; [|done]. simpl in Hread.
    destruct (field h fm "description") as [ds|] eqn:Hds; [|done]. simpl in Hread.
    destruct (asNullable ds) as [ds'|] eqn:Hds'; [|done]. simpl in Hread.
    injection Hread as <-. simpl. by exists fields, fm, t, ds.
  - intros (fields & fm & t & ds & -> & -> & Hs & -> & Hd & Ht & Ht' & Hds & Hds').
    simpl. rewrite Hs. simpl. rewrite Hd. simpl. rewrite Ht. simpl. rewrite Ht'.
    simpl. rewrite Hds. simpl. rewrite Hds'. simpl.
    by destruct node as [e [sl] [d t' ds']].
Qed.

Lemma readNode_weaken h h' v node :
  readNode h v = Some node -> h ⊆ h' -> readNode h' v = Some node.
Proof.
  rewrite !readNode_Some.
  intros (fields & fm & t & ds & ? & ? & ? & ? & ? & ? & ? & ? & ?) Hsub.
  exists fields, fm, t, ds. repeat split; eauto using field_weaken.
Qed.

Lemma readEdge_Some h v edge :
  readEdge h v = Some edge <->
  exists node, field h v "node" = Some node /\
               readNode h node = Some (Edge.node edge).
Proof.
  unfold readEdge. split.
  - destruct (field h v "node") as [node|] eqn:Hv; [|done]. simpl.
    destruct (readNode h node) as [n|] eqn:Hn; [|done]. simpl.
    intros [= <-]. exists node. by split.
  - intros (node & -> & Hn). simpl. rewrite Hn. by destruct edge.
Qed.

Lemma readEdge_weaken h h' v edge :
  readEdge h v = Some edge -> h ⊆ h' -> readEdge h' v = Some edge.
Proof.
  rewrite !readEdge_Some. intros (node & ? & ?) Hsub.
  exists node. eauto using field_weaken, readNode_weaken.
Qed.

Section Render.

Variable rhythm : Q -> string.

Lemma extends_PostLink props : extends (PostLink rhythm props).
Proof.
  unfold PostLink, addProps, PostLink_addedProps, PostLink_view.
  auto 30 with extends.
Qed.

Lemma js_or_asNullable (v : val) (t : nullable) (b : string) :
  asNullable v = Some t ->
  js_or v (VStr b) = VStr (View.js_or t b).
Proof.
  destruct v as [| |s|l]; intros [= <-]; try done.
  unfold js_or, View.js_or. simpl. by destruct (negb (String.eqb s "")).
Qed.

(** A property that is not [undefined] was read from an object. *)
Lemma field_defined h v k a :
  field h v k = Some a -> a <> VUndefined ->
  exists l fields, v = VRef l /\ h !! l = Some (Obj fields) /\ fields !! k = Some a.
Proof.
  unfold field, get. intros Hf Ha. destruct v as [| |s|l]; try done.
  - by injection Hf as <-.
  - destruct (h !! l) as [[fields|items]|] eqn:Hl; try done.
    + exists l, fields. injection Hf as Hf.
      destruct (fields !! k) as [a'|]; simpl in Hf; by subst.
    + by injection Hf as <-.
Qed.

Lemma field_alloc (h : heap) l fields k :
  field (<[ l := Obj fields ]> h) (VRef l) k =
    Some (default VUndefined (fields !! k)).
Proof. unfold field, get. by rewrite lookup_insert_eq. Qed.

Lemma readNode_defined h v node : readNode h v = Some node -> v <> VUndefined.
Proof. by intros Hread ->. Qed.

Lemma PostLink_addedProps_runs h props post node :
  field h props "post" = Some post ->
  readNode h post = Some node ->
  PostLink_addedProps props h =
    Some ({[ "title" := VStr (View.PostLink_title node) ]}, h).
Proof.
  intros Hpost (fields & fm & t & ds & He & Hf & Hs & Hfm & Hd & Ht & Ht' & Hds & Hds')
    %readNode_Some.
  unfold PostLink_addedProps.
  rewrite (bind_get _ _ _ _ _ Hpost), (bind_get _ _ _ _ _ Hfm),
    (bind_get _ _ _ _ _ Ht), (bind_get _ _ _ _ _ Hf), (bind_get _ _ _ _ _ Hs).
  by rewrite (js_or_asNullable _ _ _ Ht').
Qed.

Lemma PostLink_view_runs h props post node title :
  field h props "post" = Some post ->
  field h props "title" = Some (VStr title) ->
  readNode h post = Some node ->
  PostLink_view rhythm props h =
    Some (View.PostLink_view rhythm node title, h).
Proof.
  intros Hpost Htitle
    (fields & fm & t & ds & He & Hf & Hs & Hfm & Hd & Ht & Ht' & Hds & Hds')
    %readNode_Some.
  unfold PostLink_view.
  rewrite (bind_get _ _ _ _ _ Hpost), (bind_get _ _ _ _ _ Hfm),
    (bind_get _ _ _ _ _ Hd), (bind_get _ _ _ _ _ Hds), (bind_get _ _ _ _ _ Hf),
    (bind_get _ _ _ _ _ Hs), (bind_get _ _ _ _ _ He), (bind_get _ _ _ _ _ Htitle).
  rewrite (js_or_asNullable _ _ _ Hds'). unfold View.PostLink_view. simpl.
  reflexivity.
Qed.

Lemma PostLink_runs h props post node :
  field h props "post" = Some post ->
  readNode h post = Some node ->
  exists h', PostLink rhythm props h = Some (View.PostLink rhythm node, h').
Proof.
  intros Hpost Hnode.
  destruct (field_defined _ _ _ _ Hpost (readNode_defined _ _ _ Hnode))
    as (l & own & -> & Hl & Hown).
  set (l' := fresh (dom h)).
  set (props' := {[ "title" := VStr (View.PostLink_title node) ]} ∪ own).
  exists (<[ l' := Obj props' ]> h).
  assert (Hsub : h ⊆ <[ l' := Obj props' ]> h)
    by apply insert_subseteq, alloc_fresh.
  unfold PostLink, addProps.
  unfold mbind at 1 2, M_bind at 1 2.
  rewrite (PostLink_addedProps_runs _ _ _ _ Hpost Hnode).
  unfold mbind at 1, M_bind at 1, spread. rewrite Hl.
  unfold alloc. fold l' props'.
  apply PostLink_view_runs with (post := post).
  - rewrite field_alloc. unfold props'.
    rewrite lookup_union_r by done. by rewrite Hown.
  - rewrite field_alloc. unfold props'.
    by rewrite (lookup_union_Some_l _ _ _ (VStr (View.PostLink_title node))).
  - by eapply readNode_weaken.
Qed.


Lemma extends_BlogIndex_entry edge : extends (BlogIndex_entry rhythm edge).
Proof.
  unfold BlogIndex_entry. pose proof extends_PostLink. auto 30 with extends.
Qed.

Lemma extends_BlogIndex_entries data : extends (BlogIndex_entries rhythm data).
Proof.
  unfold BlogIndex_entries.
  pose proof (fun l => extends_arrayMap _ l extends_BlogIndex_entry).
  auto 30 with extends.
Qed.

Lemma BlogIndex_entry_runs h v edge :
  readEdge h v = Some edge ->
  exists h', BlogIndex_entry rhythm v h = Some (View.BlogIndex_entry rhythm edge, h').
Proof.
  intros (node & Hnode & Hread)%readEdge_Some.
  pose proof Hread as
    (fields & fm & t & ds & He & Hf & Hs & _)%readNode_Some.
  set (l := fresh (dom h)).
  set (h1 := <[ l := Obj {[ "post" := node ]} ]> h).
  assert (Hsub : h ⊆ h1) by apply insert_subseteq, alloc_fresh.
  destruct (PostLink_runs h1 (VRef l) node (Edge.node edge)) as [h' Hrun].
  { unfold h1. rewrite field_alloc. by rewrite lookup_singleton_eq. }
  { by eapply readNode_weaken. }
  exists h'. unfold BlogIndex_entry.
  rewrite (bind_get _ _ _ _ _ Hnode), (bind_get _ _ _ _ _ Hf),
    (bind_get _ _ _ _ _ Hs).
  unfold mbind at 1, M_bind at 1, alloc. fold l h1.
  unfold mbind, M_bind. by rewrite Hrun.
Qed.

Lemma arrayMap_entries_run (edges : list val) :
  forall (posts : list Edge.t) h,
    Forall2 (fun v edge => readEdge h v = Some edge) edges posts ->
    exists h', arrayMap (BlogIndex_entry rhythm) edges h =
                 Some (map (View.BlogIndex_entry rhythm) posts, h').
Proof.
  induction edges as [|v edges IH]; intros posts h Hall.
  - apply Forall2_nil_inv_l in Hall as ->. by exists h.
  - apply Forall2_cons_inv_l in Hall as (edge & posts' & Hv & Hall & ->).
    destruct (BlogIndex_entry_runs _ _ _ Hv) as [h1 Hrun].
    pose proof (extends_BlogIndex_entry _ _ _ _ Hrun) as Hsub.
    destruct (IH posts' h1) as [h' Hrest].
    { eapply Forall2_impl; [exact Hall|]. intros v' e' He'. simpl.
      exact (readEdge_weaken _ _ _ _ He' Hsub). }
    exists h'. simpl. unfold mbind, M_bind. by rewrite Hrun, Hrest.
Qed.

(** What [readEdges] has read when it gives the edges. *)
Lemma readEdges_Some h data posts :
  readEdges h data = Some posts <->
  exists allMarkdownRemark l edges,
    field h data "allMarkdownRemark" = Some allMarkdownRemark /\
    field h allMarkdownRemark "edges" = Some (VRef l) /\
    h !! l = Some (Arr edges) /\
    Forall2 (fun v edge => readEdge h v = Some edge) edges posts.
Proof.
  unfold readEdges. split.
  - destruct (field h data "allMarkdownRemark") as [amr|] eqn:Hamr; [|done].
    simpl. destruct (field h amr "edges") as [arr|] eqn:Harr; [|done].
    simpl. unfold elements.
    destruct arr as [| |s|l]; try done.
    destruct (h !! l) as [[fields|edges]|] eqn:Hl; try done.
    simpl. intros Hall%mapM_Some. by exists amr, l, edges.
  - intros (amr & l & edges & -> & Harr & Hl & Hall). simpl.
    rewrite Harr. simpl. unfold elements. rewrite Hl. simpl.
    by apply mapM_Some.
Qed.

Lemma readEdges_weaken h h' data posts :
  readEdges h data = Some posts -> h ⊆ h' -> readEdges h' data = Some posts.
Proof.
  rewrite !readEdges_Some. intros (amr & l & edges & ? & ? & ? & Hall) Hsub.
  exists amr, l, edges. repeat split; eauto using field_weaken, lookup_weaken.
  eapply Forall2_impl; [exact Hall|]. intros v e He. simpl.
  exact (readEdge_weaken _ _ _ _ He Hsub).
Qed.

Lemma BlogIndex_entries_run h data posts :
  readEdges h data = Some posts ->
  exists h', BlogIndex_entries rhythm data h =
               Some (map (View.BlogIndex_entry rhythm) posts, h').
Proof.
  intros (amr & l & edges & Hamr & Harr & Hl & Hall)%readEdges_Some.
  destruct (arrayMap_entries_run _ _ _ Hall) as [h' Hrun].
  exists h'. unfold BlogIndex_entries.
  rewrite (bind_get _ _ _ _ _ Hamr), (bind_get _ _ _ _ _ Harr).
  unfold mbind, M_bind, elements. by rewrite Hl.
Qed.

(** C8: on a heap that holds the query result, rendering the list of
    [BlogIndex] returns the entries and leaves every object that was
    on the heap as it was, so that the edges read back afterwards are
    the same, field by field; so does a render of [PostLink] for the
    node that its props hold.  A render that throws changes nothing
    either: whatever the heap, a render that returns has only added
    objects. *)
Theorem render_leaves_post_data_unchanged h data posts :
  readEdges h data = Some posts ->
  (exists h',
      BlogIndex_entries rhythm data h =
        Some (map (View.BlogIndex_entry rhythm) posts, h') /\
      h ⊆ h' /\
      readEdges h' data = Some posts) /\
  (forall props post node,
      field h props "post" = Some post ->
      readNode h post = Some node ->
      exists h',
        PostLink rhythm props h = Some (View.PostLink rhythm node, h') /\
        h ⊆ h' /\
        readNode h' post = Some node /\
        field h' props "post" = Some post) /\
  (forall h0 v out h',
      PostLink rhythm v h0 = Some (out, h') \/
      (exists outs, BlogIndex_entries rhythm v h0 = Some (outs, h')) ->
      forall l c, h0 !! l = Some c -> h' !! l = Some c).
Proof.
  intros Hread. split; [|split].
  - destruct (BlogIndex_entries_run _ _ _ Hread) as [h' Hrun].
    pose proof (extends_BlogIndex_entries _ _ _ _ Hrun) as Hsub.
    exists h'. eauto using readEdges_weaken.
  - intros props post node Hpost Hnode.
    destruct (PostLink_runs _ _ _ _ Hpost Hnode) as [h' Hrun].
    pose proof (extends_PostLink _ _ _ _ Hrun) as Hsub.
    exists h'. eauto 6 using readNode_weaken, field_weaken.
  - intros h0 v out h' [Hrun | [outs Hrun]] l c Hl.
    + eapply lookup_weaken; [exact Hl|]. by eapply extends_PostLink.
    + eapply lookup_weaken; [exact Hl|]. by eapply extends_BlogIndex_entries.
Qed.

End Render.

End StoreProperties.

(** ** The markdown posts *)

Lemma wellFormed_sound (lines : list string) :
  Content.wellFormed lines = true ->
  exists title date,
    Content.frontMatter lines =
      Some [("title", Content.Quoted title); ("date", Content.Quoted date)] /\
    Content.isISO8601 date = true.
Proof.
  unfold Content.wellFormed.
  destruct (Content.frontMatter lines)
    as [[|[k1 [title|]] [|[k2 [date|]] [|]]]|]; try discriminate.
  intros [[->%String.eqb_eq ->%String.eqb_eq]%andb_true_iff Hdate]%andb_true_iff.
  by exists title, date.
Qed.

(** C7: each of the six posts under [content/blog] opens with a front
    matter whose fields are [title] and [date] and no other, both quoted
    strings, the date an ISO 8601 timestamp. *)
Theorem posts_front_matter_title_and_date :
  length Content.posts = 6%nat /\
  Forall (fun post =>
            exists title date,
              Content.frontMatter post.2 =
                Some [("title", Content.Quoted title); ("date", Content.Quoted date)] /\
              Content.isISO8601 date = true)
         Content.posts.
Proof.
  split; [reflexivity|]. unfold Content.posts.
  repeat (constructor; [apply wellFormed_sound; vm_compute; reflexivity|]).
  constructor.
Qed.

(** ** Checks on the sample inputs *)

(** The two sample posts, the later one first. *)
Lemma BlogIndex_one_entry_per_post_witness :
  Sorted Sample.before
    (map Edge.node (AllMarkdownRemark.edges (Data.allMarkdownRemark Sample.data))) /\
  length (postEntries
            (BlogIndex Sample.rhythm Sample.scale Sample.PATH_PREFIX
               Sample.env Sample.data Sample.home)) = 2%nat.
Proof.
  assert (Hsorted : Sorted Sample.before
            (map Edge.node
               (AllMarkdownRemark.edges (Data.allMarkdownRemark Sample.data)))).
  { repeat constructor. }
  split; [exact Hsorted|].
  exact (proj1 (proj2 (BlogIndex_one_entry_per_post Sample.rhythm Sample.scale
                         Sample.PATH_PREFIX Sample.before Sample.env Sample.data
                         Sample.home Hsorted))).
Defined.

(** The two sample posts have different slugs. *)
Lemma slug_is_route_and_key_witness :
  NoDup (map entryKey
           (postEntries
              (BlogIndex Sample.rhythm Sample.scale Sample.PATH_PREFIX
                 Sample.env Sample.data Sample.home))).
Proof.
  apply (slug_is_route_and_key Sample.rhythm Sample.scale Sample.PATH_PREFIX
           Sample.env Sample.data Sample.home).
  apply (bool_decide_unpack _). vm_compute. exact I.
Defined.

(** The same author, with and without a twitter handle. *)
Lemma Bio_depends_on_author_only_witness :
  Social.twitter (BioSiteMetadata.social
    (BioSite.siteMetadata (BioData.site Sample.bio))) <>
  Social.twitter (BioSiteMetadata.social
    (BioSite.siteMetadata (BioData.site Sample.bioNoTwitter))) /\
  Bio Sample.rhythm Sample.bio = Bio Sample.rhythm Sample.bioNoTwitter.
Proof.
  split; [discriminate|].
  apply (Bio_depends_on_author_only Sample.rhythm Sample.bio Sample.bioNoTwitter).
  reflexivity.
Defined.

(** The sample heap, whose query result holds one post. *)
Lemma render_leaves_post_data_unchanged_witness :
  exists h',
    Store.BlogIndex_entries Sample.rhythm (Store.VRef 8%positive) Sample.heap =
      Some (map (BlogIndex_entry Sample.rhythm) [Edge.mk Sample.dynamicPortal], h') /\
    Sample.heap ⊆ h' /\
    Store.readEdges h' (Store.VRef 8%positive) = Some [Edge.mk Sample.dynamicPortal].
Proof.
  apply (StoreProperties.render_leaves_post_data_unchanged Sample.rhythm
           Sample.heap (Store.VRef 8%positive) [Edge.mk Sample.dynamicPortal]).
  vm_compute. reflexivity.
Defined.

(** C3, as stated, fails: with the same props, the page rendered in the
    last millisecond of 2019 and the page rendered in the first
    millisecond of 2020 differ, for [Layout] and for [BlogIndex]. *)
Lemma render_depends_on_clock :
  Layout Sample.rhythm Sample.scale Sample.PATH_PREFIX
    Sample.lastOf2019 Sample.home "skribblin" [] <>
  Layout Sample.rhythm Sample.scale Sample.PATH_PREFIX
    Sample.firstOf2020 Sample.home "skribblin" [] /\
  BlogIndex Sample.rhythm Sample.scale Sample.PATH_PREFIX
    (Env.mk Sample.lastOf2019 Sample.bio) Sample.data Sample.home <>
  BlogIndex Sample.rhythm Sample.scale Sample.PATH_PREFIX
    (Env.mk Sample.firstOf2020 Sample.bio) Sample.data Sample.home.
Proof.
  split; intros Heq; apply (f_equal footerOf) in Heq; vm_compute in Heq;
    discriminate.
Qed.

(** * Further properties of the components *)

Section ViewProperties.

Variable rhythm : Q -> string.
Variable scale : Q -> gmap string cssval.
Variable PATH_PREFIX : string.

Local Abbreviation Layout := (Layout rhythm scale PATH_PREFIX).
Local Abbreviation Layout_header := (Layout_header rhythm scale PATH_PREFIX).
Local Abbreviation PostLink := (PostLink rhythm).
Local Abbreviation Bio := (Bio rhythm).
Local Abbreviation BlogIndex := (BlogIndex rhythm scale PATH_PREFIX).
Local Abbreviation BlogIndex_entry := (BlogIndex_entry rhythm).

Lemma textOf_Layout_header location title :
  textOf (Layout_header location title) = [title].
Proof. unfold Layout_header. by destruct (String.eqb _ _). Qed.

Lemma textOf_Layout now location title children :
  textOf (Layout now location title children) =
    title :: flat_map textOf children ++ ["© "; ", Built with"; " "; "Gatsby"].
Proof.
  unfold Layout, Layout_view. cbn [textOf flat_map].
  rewrite textOf_Layout_header. cbn [textOf flat_map app].
  by rewrite ?app_nil_r.
Qed.

Lemma textOf_entries (posts : list Edge.t) :
  flat_map textOf (map BlogIndex_entry posts) =
    flat_map (fun edge =>
                [PostLink_title (Edge.node edge);
                 Frontmatter.date (Node.frontmatter (Edge.node edge))])
             posts.
Proof. induction posts as [|e posts IH]; simpl; [done | by rewrite IH]. Qed.

Lemma js_or_not_empty (a : nullable) (b : string) : b <> "" -> js_or a b <> "".
Proof.
  intros Hb. destruct a as [s|]; [|done]. unfold js_or, truthy.
  destruct (String.eqb_spec s ""); simpl; congruence.
Qed.

(** X1: [Layout] and [Bio] put no raw HTML on a page: the raw HTML of a
    page built by [Layout] is that of the children it was given, on every
    route, and [Bio] and the [SEO] element of the index have none. *)
Theorem Layout_and_Bio_add_no_raw_html now location title children data :
  rawHtml (Layout now location title children) = flat_map rawHtml children /\
  rawHtml (Bio data) = [] /\
  rawHtml SEO_AllPosts = [].
Proof. split; [apply rawHtml_Layout | by split]. Qed.

(** X2: on every route a page built by [Layout] shows, in this order,
    the title, the text of its children and the footer text, and the one
    number of the footer is the full year of the clock. *)
Theorem Layout_shows_title_children_footer now location title children :
  textOf (Layout now location title children) =
    title :: flat_map textOf children ++ ["© "; ", Built with"; " "; "Gatsby"] /\
  footerOf (Layout now location title children) !! 1%nat =
    Some (Number (Date.getFullYear now)).
Proof. split; [apply textOf_Layout | reflexivity]. Qed.

(** X3: the index page shows the site title of the query result, the
    line about the author, then for each edge in order the title (or
    slug) and the date of its post, and the footer text. *)
Theorem BlogIndex_shows_title_bio_posts env data location :
  textOf (BlogIndex env data location) =
    ([ SiteMetadata.title (Site.siteMetadata (Data.site data));
      "Written by ";
      BioSiteMetadata.author (BioSite.siteMetadata (BioData.site (Env.bioQuery env)));
      " who lives and works in NYC." ] ++
    flat_map (fun edge =>
                [ js_or (Frontmatter.title (Node.frontmatter (Edge.node edge)))
                        (Fields.slug (Node.fields (Edge.node edge)));
                  Frontmatter.date (Node.frontmatter (Edge.node edge)) ])
             (AllMarkdownRemark.edges (Data.allMarkdownRemark data)) ++
    ["© "; ", Built with"; " "; "Gatsby"])%list.
Proof.
  unfold BlogIndex. rewrite textOf_Layout. simpl.
  by rewrite textOf_entries.
Qed.

(** X4: a post with a non-empty slug never gets an empty link text,
    whatever its title is. *)
Theorem PostLink_link_text_not_empty (post : Node.t) :
  Fields.slug (Node.fields post) <> "" ->
  exists link text,
    linkOf (PostLink post) = Some link /\
    childrenOf link = [Text text] /\
    text <> "".
Proof.
  intros Hslug. eexists _, (PostLink_title post).
  split; [reflexivity|]. split; [reflexivity|]. by apply js_or_not_empty.
Qed.

(** X5: a post with a non-empty excerpt never gets an empty summary,
    whatever its description is. *)
Theorem PostLink_summary_not_empty (post : Node.t) :
  Node.excerpt post <> "" ->
  exists p html,
    paragraphOf (PostLink post) = Some p /\
    innerHtmlOf p = Some html /\
    html <> "".
Proof.
  intros Hexcerpt.
  eexists _, (js_or (Frontmatter.description (Node.frontmatter post))
                    (Node.excerpt post)).
  split; [reflexivity|]. split; [reflexivity|]. by apply js_or_not_empty.
Qed.

(** X6: with no edges the index page still has its [SEO] element and
    the [Bio] in [<main>], and neither entries nor raw HTML. *)
Theorem BlogIndex_without_posts env data location :
  AllMarkdownRemark.edges (Data.allMarkdownRemark data) = [] ->
  mainOf (BlogIndex env data location) = [SEO_AllPosts; Bio (Env.bioQuery env)] /\
  postEntries (BlogIndex env data location) = [] /\
  rawHtml (BlogIndex env data location) = [].
Proof.
  intros Hnone. split; [|split].
  - unfold BlogIndex. rewrite mainOf_Layout. by rewrite Hnone.
  - by rewrite postEntries_BlogIndex, Hnone.
  - unfold BlogIndex. rewrite rawHtml_Layout. by rewrite Hnone.
Qed.

End ViewProperties.

(** ** Missing data: what throws and what is left out *)
Module MissingData.
Import Store Page StoreProperties.

Lemma get_nullish v k (h : heap) : isNullish v = true -> get v k h = None.
Proof. by destruct v. Qed.

Lemma field_nullish v k (h : heap) : isNullish v = true -> field h v k = None.
Proof. by destruct v. Qed.

Lemma bind_None {A B} (m : M A) (f : A -> M B) h :
  m h = None -> (m ≫= f) h = None.
Proof. intros Hm. unfold mbind, M_bind. by rewrite Hm. Qed.


(** A read gives a value and the same heap, or throws. *)
Lemma get_cases v k (h : heap) :
  get v k h = None \/ exists a, field h v k = Some a.
Proof.
  unfold field. destruct (get v k h) as [[a h']|]; [right | left]; eauto.
Qed.

Section Render.

Variable rhythm : Q -> string.

Lemma PostLink_addedProps_throws h props post fm fs :
  field h props "post" = Some post ->
  field h post "frontmatter" = Some fm ->
  field h post "fields" = Some fs ->
  isNullish fm || isNullish fs = true ->
  PostLink_addedProps props h = None.
Proof.
  intros Hpost Hfm Hfs Hnull. unfold PostLink_addedProps.
  rewrite (bind_get _ _ _ _ _ Hpost), (bind_get _ _ _ _ _ Hfm).
  destruct (get_cases fm "title" h) as [Hthrow | [t Ht]].
  { by apply bind_None. }
  rewrite (bind_get _ _ _ _ _ Ht), (bind_get _ _ _ _ _ Hfs).
  apply bind_None, get_nullish.
  destruct fm; try done; by rewrite field_nullish in Ht.
Qed.

(** X7: [PostLink] throws when it is given no post: when its props are
    [undefined] or [null], or when [props.post] is. *)
Theorem PostLink_throws_without_post h props :
  isNullish props = true \/
  (exists post, field h props "post" = Some post /\ isNullish post = true) ->
  PostLink rhythm props h = None.
Proof.
  intros Hnone. unfold PostLink, addProps. do 2 apply bind_None.
  unfold PostLink_addedProps.
  destruct Hnone as [Hprops | (post & Hpost & Hnull)].
  - by apply bind_None, get_nullish.
  - rewrite (bind_get _ _ _ _ _ Hpost). by apply bind_None, get_nullish.
Qed.

Lemma PostLink_throws_on_nullish_part h props post fm fs :
  field h props "post" = Some post ->
  field h post "frontmatter" = Some fm ->
  field h post "fields" = Some fs ->
  isNullish fm || isNullish fs = true ->
  PostLink rhythm props h = None.
Proof.
  intros Hpost Hfm Hfs Hnull. unfold PostLink, addProps.
  do 2 apply bind_None. by eapply PostLink_addedProps_throws.
Qed.

(** X8: [PostLink] throws when the post has no [frontmatter] or no
    [fields]. *)
Theorem PostLink_throws_without_frontmatter_or_fields h props post fm fs :
  field h props "post" = Some post ->
  field h post "frontmatter" = Some fm ->
  field h post "fields" = Some fs ->
  isNullish fm || isNullish fs = true ->
  PostLink rhythm props h = None.
Proof. apply PostLink_throws_on_nullish_part. Qed.

Lemma asChild_nullable v (h : heap) :
  is_Some (asNullable v) -> asChild v h = Some (map Text (asText v), h).
Proof. destruct v; try done. by intros [? [=]]. Qed.



Lemma lacksData_weaken h h' edge :
  lacksData h edge -> h ⊆ h' -> lacksData h' edge.
Proof.
  intros [Hedge | (node & Hnode & Hlacks)] Hsub; [by left | right].
  exists node. split; [by eapply field_weaken|].
  destruct Hlacks as [Hnull | (fm & fs & Hfm & Hfs & Hnull)]; [by left | right].
  exists fm, fs. eauto using field_weaken.
Qed.

Lemma BlogIndex_entry_throws h edge :
  lacksData h edge -> BlogIndex_entry rhythm edge h = None.
Proof.
  intros [Hedge | (node & Hnode & Hlacks)]; unfold BlogIndex_entry.
  { by apply bind_None, get_nullish. }
  rewrite (bind_get _ _ _ _ _ Hnode).
  destruct Hlacks as [Hnull | (fm & fs & Hfm & Hfs & Hnull)].
  { by apply bind_None, get_nullish. }
  rewrite (bind_get _ _ _ _ _ Hfs).
  destruct (get_cases fs "slug" h) as [Hthrow | [slug Hslug]].
  { by apply bind_None. }
  rewrite (bind_get _ _ _ _ _ Hslug).
  unfold mbind at 1, M_bind at 1, alloc.
  set (l := fresh (dom h)). set (h1 := <[ l := Obj {[ "post" := node ]} ]> h).
  assert (Hsub : h ⊆ h1) by apply insert_subseteq, alloc_fresh.
  apply bind_None.
  apply (PostLink_throws_on_nullish_part h1 (VRef l) node fm fs);
    eauto using field_weaken.
  unfold h1. rewrite field_alloc. by rewrite lookup_singleton_eq.
Qed.

Lemma arrayMap_throws {A B} (f : A -> M B) (l : list A) (a : A) :
  (forall a', extends (f a')) ->
  a ∈ l ->
  forall h, (forall h', h ⊆ h' -> f a h' = None) -> arrayMap f l h = None.
Proof.
  intros Hext Hin. induction Hin as [a l | a b l Hin IH]; intros h Hthrows; simpl.
  - apply bind_None, Hthrows. done.
  - unfold mbind at 1, M_bind at 1.
    destruct (f b h) as [[b' h1]|] eqn:Hb; [|done].
    apply bind_None, IH. intros h' Hsub. apply Hthrows.
    transitivity h1; [by eapply Hext | done].
Qed.


(** X11: the list of entries throws when [data.allMarkdownRemark] is
    [undefined] or [null], and when its [edges] is not an array. *)
Theorem BlogIndex_entries_throws_without_edges h data :
  (exists allMarkdownRemark,
      field h data "allMarkdownRemark" = Some allMarkdownRemark /\
      (isNullish allMarkdownRemark = true \/
       exists posts,
         field h allMarkdownRemark "edges" = Some posts /\
         forall l items, posts = VRef l -> h !! l <> Some (Arr items))) ->
  BlogIndex_entries rhythm data h = None.
Proof.
  intros (amr & Hamr & [Hnull | (posts & Hposts & Hnoarray)]);
    unfold BlogIndex_entries; rewrite (bind_get _ _ _ _ _ Hamr).
  - by apply bind_None, get_nullish.
  - rewrite (bind_get _ _ _ _ _ Hposts). apply bind_None.
    unfold elements. destruct posts as [| |s|l]; try done.
    destruct (h !! l) as [[fields|items]|] eqn:Hl; try done.
    by destruct (Hnoarray l items).
Qed.

(** X12: one edge without a node, or whose node has no [frontmatter] or
    no [fields], makes the whole list throw, wherever it stands in the
    array: no entry is rendered for the other posts. *)
Theorem BlogIndex_entries_throw_on_one_bad_post h data allMarkdownRemark l edges edge :
  field h data "allMarkdownRemark" = Some allMarkdownRemark ->
  field h allMarkdownRemark "edges" = Some (VRef l) ->
  h !! l = Some (Arr edges) ->
  edge ∈ edges ->
  lacksData h edge ->
  BlogIndex_entries rhythm data h = None.
Proof.
  intros Hamr Hedges Hl Hin Hlacks. unfold BlogIndex_entries.
  rewrite (bind_get _ _ _ _ _ Hamr), (bind_get _ _ _ _ _ Hedges).
  unfold mbind at 1, M_bind at 1, elements. rewrite Hl.
  apply (arrayMap_throws _ _ edge); [apply extends_BlogIndex_entry | done |].
  intros h' Hsub. by eapply BlogIndex_entry_throws, lacksData_weaken.
Qed.

End Render.

End MissingData.

(** ** The whole index page over the store *)
Module PageProperties.
Import Store Page StoreProperties MissingData.

Lemma strictEq_VStr (a b : string) : strictEq (VStr a) (VStr b) = String.eqb a b.
Proof.
  unfold strictEq. destruct (String.eqb_spec a b) as [-> | Hne].
  - by apply bool_decide_eq_true_2.
  - apply bool_decide_eq_false_2. congruence.
Qed.

Lemma strictEq_true (a b : val) : strictEq a b = true <-> a = b.
Proof. unfold strictEq. apply bool_decide_eq_true. Qed.

Ltac extends_steps :=
  repeat first
    [ apply extends_BlogIndex_entries
    | apply extends_get | apply extends_spread | apply extends_alloc
    | apply extends_asChild | apply extends_ret | apply extends_elements
    | apply extends_bind; [|intros ?] ].

Section Render.

Variable rhythm : Q -> string.
Variable scale : Q -> gmap string cssval.
Variable PATH_PREFIX : string.

Local Abbreviation Layout := (Layout rhythm scale PATH_PREFIX).
Local Abbreviation Layout_header := (Layout_header rhythm scale PATH_PREFIX).
Local Abbreviation BlogIndex := (BlogIndex rhythm scale PATH_PREFIX).
Local Abbreviation rootPath := (View.rootPath PATH_PREFIX).

Lemma extends_Layout now props children : extends (Layout now props children).
Proof. unfold Layout, Layout_header, Title. extends_steps. Qed.

Lemma extends_BlogIndex env props : extends (BlogIndex env props).
Proof. unfold BlogIndex, Layout, Layout_header, Title. extends_steps. Qed.

(** The header that [Layout] computes from a location that can be read
    and a title that is no object. *)
Lemma Layout_header_runs h props location title pathname :
  field h props "location" = Some location ->
  field h props "title" = Some title ->
  field h location "pathname" = Some pathname ->
  is_Some (asNullable title) ->
  exists header,
    Layout_header props h = Some (header, h) /\
    childrenOf header =
      [External "Link"
         {[ "style" := PStyle {[ "boxShadow" := CssStr "none";
                                 "textDecoration" := CssStr "none";
                                 "color" := CssStr "inherit" ]};
            "to" := PStr "/" ]}
         (map Text (asText title))] /\
    tagOf header = Some (if strictEq pathname (VStr rootPath) then "h1" else "h3").
Proof.
  intros Hloc Htitle Hpath Hnt. eexists. split.
  - unfold Layout_header, Title.
    rewrite (bind_get _ _ _ _ _ Hloc), (bind_get _ _ _ _ _ Htitle),
      (bind_get _ _ _ _ _ Hpath).
    unfold mbind at 1 2, M_bind at 1 2.
    rewrite (asChild_nullable _ _ Hnt). reflexivity.
  - by destruct (strictEq pathname (VStr rootPath)).
Qed.

Lemma Layout_runs h now props children location title pathname :
  field h props "location" = Some location ->
  field h props "title" = Some title ->
  field h location "pathname" = Some pathname ->
  is_Some (asNullable title) ->
  exists header h',
    Layout now props children h =
      Some (View.Layout_view rhythm now header children, h') /\
    Layout_header props h = Some (header, h).
Proof.
  intros Hloc Htitle Hpath Hnt.
  destruct (Layout_header_runs _ _ _ _ _ Hloc Htitle Hpath Hnt)
    as (header & Hheader & _).
  exists header. unfold Layout. unfold mbind at 1, M_bind at 1. rewrite Hheader.
  unfold mbind, M_bind, spread, alloc.
  destruct props as [| |s|l]; try (eexists; split; [reflexivity | done]).
  destruct (h !! l) as [[own|items]|]; eexists; (split; [reflexivity | done]).
Qed.

(** X13: [Layout] throws when it is given no location: when its props
    are [undefined] or [null], or when [props.location] is. *)
Theorem Layout_throws_without_location h now props children :
  isNullish props = true \/
  (exists location,
      field h props "location" = Some location /\ isNullish location = true) ->
  Layout now props children h = None.
Proof.
  intros Hnone. unfold Layout. apply bind_None. unfold Layout_header.
  destruct Hnone as [Hprops | (location & Hloc & Hnull)].
  - by apply bind_None, get_nullish.
  - rewrite (bind_get _ _ _ _ _ Hloc).
    destruct (get_cases props "title" h) as [Hthrow | [title Htitle]].
    { by apply bind_None. }
    rewrite (bind_get _ _ _ _ _ Htitle). by apply bind_None, get_nullish.
Qed.

(** X14: with a location that can be read, [Layout] renders; its header
    is the [h1] only when the pathname is the string [rootPath], and the
    [h3] for every other value, a missing pathname included; a title that
    is missing leaves the link without text.  The children go to [<main>]
    and no object is changed. *)
Theorem Layout_header_by_pathname_value h now props children location title pathname :
  field h props "location" = Some location ->
  field h props "title" = Some title ->
  field h location "pathname" = Some pathname ->
  is_Some (asNullable title) ->
  exists out h' header,
    Layout now props children h = Some (out, h') /\
    h ⊆ h' /\
    headerOf out = Some header /\
    mainOf out = children /\
    (tagOf header = Some "h1" <-> pathname = VStr rootPath) /\
    (tagOf header = Some "h3" <-> pathname <> VStr rootPath) /\
    textOf header = asText title.
Proof.
  intros Hloc Htitle Hpath Hnt.
  destruct (Layout_runs h now props children _ _ _ Hloc Htitle Hpath Hnt)
    as (header & h' & Hrun & Hheader).
  destruct (Layout_header_runs _ _ _ _ _ Hloc Htitle Hpath Hnt)
    as (header' & Hheader' & Hchildren & Htag).
  rewrite Hheader in Hheader'. injection Hheader' as <-.
  exists (View.Layout_view rhythm now header children), h', header.
  split; [exact Hrun|]. split; [by eapply extends_Layout|].
  split; [reflexivity|]. split; [reflexivity|].
  rewrite Htag. destruct (strictEq pathname (VStr rootPath)) eqn:Heq.
  - apply strictEq_true in Heq. split; [done|]. split; [done|].
    destruct header as [| |tag hp hc| |]; try done. simpl in Hchildren.
    rewrite Hchildren. simpl. clear. destruct title; try done.
  - assert (Hne : pathname <> VStr rootPath).
    { intros Heq'%strictEq_true. congruence. }
    split; [split; [done | by intros]|]. split; [done|].
    destruct header as [| |tag hp hc| |]; try done. simpl in Hchildren.
    rewrite Hchildren. simpl. clear. destruct title; try done.
Qed.

(** What [readData] has read when it gives the query result. *)
Lemma readData_Some h v data :
  readData h v = Some data <->
  exists site siteMetadata,
    field h v "site" = Some site /\
    field h site "siteMetadata" = Some siteMetadata /\
    field h siteMetadata "title" =
      Some (VStr (SiteMetadata.title (Site.siteMetadata (Data.site data)))) /\
    readEdges h v = Some (AllMarkdownRemark.edges (Data.allMarkdownRemark data)).
Proof.
  unfold readData. split.
  - destruct (field h v "site") as [site|] eqn:Hsite; [|done]. simpl.
    destruct (field h site "siteMetadata") as [sm|] eqn:Hsm; [|done]. simpl.
    destruct (field h sm "title") as [[| |t|]|] eqn:Ht; try done. simpl.
    destruct (readEdges h v) as [edges|] eqn:Hedges; [|done]. simpl.
    intros [= <-]. by exists site, sm.
  - intros (site & sm & -> & Hsm & Ht & Hedges). simpl. rewrite Hsm. simpl.
    rewrite Ht. simpl. rewrite Hedges. simpl.
    by destruct data as [[[t]] [edges]].
Qed.

Lemma readData_weaken h h' v data :
  readData h v = Some data -> h ⊆ h' -> readData h' v = Some data.
Proof.
  rewrite !readData_Some. intros (site & sm & ? & ? & ? & ?) Hsub.
  exists site, sm. repeat split; eauto using field_weaken, readEdges_weaken.
Qed.

Lemma readLocation_Some h v location :
  readLocation h v = Some location <->
  field h v "pathname" = Some (VStr (Location.pathname location)).
Proof.
  unfold readLocation. split.
  - destruct (field h v "pathname") as [[| |p|]|]; try done. simpl.
    by intros [= <-].
  - intros ->. by destruct location.
Qed.

Lemma readLocation_weaken h h' v location :
  readLocation h v = Some location -> h ⊆ h' -> readLocation h' v = Some location.
Proof. rewrite !readLocation_Some. eauto using field_weaken. Qed.

(** X15: on a heap that holds the props of the page, the query result
    with its posts and the location, [BlogIndex] followed through its
    reads returns the tree that the components give on the values read,
    and leaves every object as it was: the data and the location read
    back afterwards are the same. *)
Theorem BlogIndex_page_agrees_with_view h env props dataRef locationRef data location :
  field h props "data" = Some dataRef ->
  field h props "location" = Some locationRef ->
  readData h dataRef = Some data ->
  readLocation h locationRef = Some location ->
  exists h',
    BlogIndex env props h =
      Some (View.BlogIndex rhythm scale PATH_PREFIX env data location, h') /\
    h ⊆ h' /\
    readData h' dataRef = Some data /\
    readLocation h' locationRef = Some location.
Proof.
  intros Hdata Hloc Hread Hreadloc.
  pose proof Hread as (site & sm & Hsite & Hsm & Htitle & Hedges)%readData_Some.
  pose proof Hreadloc as Hpath%readLocation_Some.
  destruct (BlogIndex_entries_run rhythm _ _ _ Hedges) as [h1 Hentries].
  pose proof (extends_BlogIndex_entries _ _ _ _ _ Hentries) as Hsub1.
  set (title := SiteMetadata.title (Site.siteMetadata (Data.site data))) in *.
  set (l := fresh (dom h1)).
  set (h2 := <[ l := Obj {[ "location" := locationRef; "title" := VStr title ]} ]> h1).
  assert (Hsub2 : h1 ⊆ h2) by apply insert_subseteq, alloc_fresh.
  set (children :=
         ([View.SEO_AllPosts; View.Bio rhythm (Env.bioQuery env)] ++
          map (View.BlogIndex_entry rhythm)
              (AllMarkdownRemark.edges (Data.allMarkdownRemark data)))%list).
  destruct (Layout_runs h2 (Env.now env) (VRef l) children
              locationRef (VStr title) (VStr (Location.pathname location)))
    as (header & h' & Hrun & Hheader).
  { unfold h2. rewrite field_alloc. by rewrite lookup_insert_eq. }
  { unfold h2. rewrite field_alloc.
    rewrite lookup_insert_ne by done. by rewrite lookup_singleton_eq. }
  { eapply field_weaken; [exact Hpath|]. by transitivity h1. }
  { by eexists. }
  assert (Hrunall : BlogIndex env props h =
            Some (View.Layout_view rhythm (Env.now env) header children, h')).
  { unfold BlogIndex.
    rewrite (bind_get _ _ _ _ _ Hdata), (bind_get _ _ _ _ _ Hloc),
      (bind_get _ _ _ _ _ Hsite), (bind_get _ _ _ _ _ Hsm),
      (bind_get _ _ _ _ _ Htitle).
    unfold mbind at 1, M_bind at 1. rewrite Hentries.
    unfold mbind at 1, M_bind at 1, alloc. fold l h2. exact Hrun. }
  assert (Hsub : h ⊆ h') by (by eapply extends_BlogIndex).
  exists h'. split; [|eauto using readData_weaken, readLocation_weaken].
  rewrite Hrunall. do 2 f_equal.
  unfold View.BlogIndex, View.Layout. fold title children. f_equal.
  unfold Layout_header, Title in Hheader.
  rewrite (bind_get h2 (VRef l) "location" locationRef) in Hheader
    by (unfold h2; rewrite field_alloc; by rewrite lookup_insert_eq).
  rewrite (bind_get h2 (VRef l) "title" (VStr title)) in Hheader
    by (unfold h2; rewrite field_alloc; rewrite lookup_insert_ne by done;
        by rewrite lookup_singleton_eq).
  rewrite (bind_get h2 locationRef "pathname" (VStr (Location.pathname location)))
    in Hheader by (eapply field_weaken; [exact Hpath | by transitivity h1]).
  unfold mbind, M_bind, asChild, mret, M_ret in Hheader.
  injection Hheader as <-. rewrite strictEq_VStr. reflexivity.
Qed.

(** X16: [BlogIndex] throws when the query result has no [site] or its
    site has no [siteMetadata], and when it is given no [data] at all. *)
Theorem BlogIndex_throws_without_site h env props :
  (exists data,
      field h props "data" = Some data /\
      (isNullish data = true \/
       exists site,
         field h data "site" = Some site /\
         (isNullish site = true \/
          exists siteMetadata,
            field h site "siteMetadata" = Some siteMetadata /\
            isNullish siteMetadata = true))) ->
  BlogIndex env props h = None.
Proof.
  intros (data & Hdata & Hnone). unfold BlogIndex.
  rewrite (bind_get _ _ _ _ _ Hdata).
  destruct (get_cases props "location" h) as [Hthrow | [location Hloc]].
  { by apply bind_None. }
  rewrite (bind_get _ _ _ _ _ Hloc).
  destruct Hnone as [Hnull | (site & Hsite & Hnone)].
  { by apply bind_None, get_nullish. }
  rewrite (bind_get _ _ _ _ _ Hsite).
  destruct Hnone as [Hnull | (sm & Hsm & Hnull)].
  { by apply bind_None, get_nullish. }
  rewrite (bind_get _ _ _ _ _ Hsm). by apply bind_None, get_nullish.
Qed.

End Render.

End PageProperties.

(** ** The effects of [useEffectOnPropChange] *)
Module PropChangeProperties.
Import Store PropChange.



Section Effects.

Variable R : Type.

(** X17: [useEffectOnPropChangeWhen()] with the condition left out is
    the first [useEffectOnPropChange]: on every render both effects call
    the callback on the same arguments, or neither does. *)
Theorem useEffectOnPropChangeWhen_default names (callback : props -> props -> R)
    p previous :
  useEffectOnPropChangeWhen R None names callback p previous =
  useEffectOnPropChange R names callback p previous.
Proof.
  unfold useEffectOnPropChangeWhen, useEffectOnPropChange. simpl.
  by destruct (negb (found (changed names p (orEmpty previous)))).
Qed.



End Effects.

End PropChangeProperties.

(** ** Checks of the further properties on the sample inputs *)
Module Checks.
Import Store Page PropChange.

(** A post whose title is empty and whose slug is not. *)
Lemma PostLink_link_text_not_empty_witness :
  exists link text,
    linkOf (View.PostLink Sample.rhythm Sample.dynamicPortal) = Some link /\
    childrenOf link = [Text text] /\
    text <> "".
Proof.
  apply (PostLink_link_text_not_empty Sample.rhythm Sample.dynamicPortal).
  discriminate.
Defined.

(** A post without description and with an excerpt. *)
Lemma PostLink_summary_not_empty_witness :
  exists p html,
    paragraphOf (View.PostLink Sample.rhythm Sample.adHokIntro) = Some p /\
    innerHtmlOf p = Some html /\
    html <> "".
Proof.
  apply (PostLink_summary_not_empty Sample.rhythm Sample.adHokIntro).
  discriminate.
Defined.

Lemma BlogIndex_without_posts_witness :
  postEntries (View.BlogIndex Sample.rhythm Sample.scale Sample.PATH_PREFIX
                 Sample.env SamplePage.dataNoPosts Sample.home) = [].
Proof.
  apply (BlogIndex_without_posts Sample.rhythm Sample.scale Sample.PATH_PREFIX
           Sample.env SamplePage.dataNoPosts Sample.home).
  reflexivity.
Defined.

(** Props that are an empty object. *)
Lemma PostLink_throws_without_post_witness :
  PostLink Sample.rhythm (VRef 2%positive) SamplePage.heapBarePost = None.
Proof.
  apply (MissingData.PostLink_throws_without_post Sample.rhythm
           SamplePage.heapBarePost (VRef 2%positive)).
  right. exists VUndefined. split; reflexivity.
Defined.

Lemma PostLink_throws_without_frontmatter_or_fields_witness :
  PostLink Sample.rhythm (VRef 4%positive) SamplePage.heapNoFrontmatter = None.
Proof.
  apply (MissingData.PostLink_throws_without_frontmatter_or_fields Sample.rhythm
           SamplePage.heapNoFrontmatter (VRef 4%positive) (VRef 1%positive)
           VUndefined (VRef 2%positive)); reflexivity.
Defined.



(** A query result that is an empty object. *)
Lemma BlogIndex_entries_throws_without_edges_witness :
  BlogIndex_entries Sample.rhythm (VRef 2%positive) SamplePage.heapBarePost = None.
Proof.
  apply (MissingData.BlogIndex_entries_throws_without_edges Sample.rhythm
           SamplePage.heapBarePost (VRef 2%positive)).
  exists VUndefined. split; [reflexivity | by left].
Defined.

Lemma BlogIndex_entries_throw_on_one_bad_post_witness :
  BlogIndex_entries Sample.rhythm (VRef 8%positive) SamplePage.heapNoFrontmatter = None.
Proof.
  apply (MissingData.BlogIndex_entries_throw_on_one_bad_post Sample.rhythm
           SamplePage.heapNoFrontmatter (VRef 8%positive) (VRef 7%positive)
           6%positive [VRef 5%positive] (VRef 5%positive));
    try reflexivity.
  - apply list_elem_of_singleton. reflexivity.
  - right. exists (VRef 1%positive). split; [reflexivity|].
    right. exists VUndefined, (VRef 2%positive). repeat split; reflexivity.
Defined.

Lemma Layout_throws_without_location_witness :
  Layout Sample.rhythm Sample.scale Sample.PATH_PREFIX Sample.lastOf2019
    (VRef 2%positive) [] SamplePage.heapBarePost = None.
Proof.
  apply (PageProperties.Layout_throws_without_location Sample.rhythm Sample.scale
           Sample.PATH_PREFIX SamplePage.heapBarePost Sample.lastOf2019
           (VRef 2%positive) []).
  right. exists VUndefined. split; reflexivity.
Defined.

Lemma Layout_header_by_pathname_value_witness :
  exists out h' header,
    Layout Sample.rhythm Sample.scale Sample.PATH_PREFIX Sample.lastOf2019
      (VRef 13%positive) [] SamplePage.heapLayout = Some (out, h') /\
    SamplePage.heapLayout ⊆ h' /\
    headerOf out = Some header /\
    mainOf out = [] /\
    (tagOf header = Some "h1" <->
     VStr "/" = VStr (View.rootPath Sample.PATH_PREFIX)) /\
    (tagOf header = Some "h3" <->
     VStr "/" <> VStr (View.rootPath Sample.PATH_PREFIX)) /\
    textOf header = ["skribblin"].
Proof.
  apply (PageProperties.Layout_header_by_pathname_value Sample.rhythm Sample.scale
           Sample.PATH_PREFIX SamplePage.heapLayout Sample.lastOf2019
           (VRef 13%positive) [] (VRef 9%positive) (VStr "skribblin") (VStr "/"));
    first [reflexivity | by eexists].
Defined.

Lemma BlogIndex_page_agrees_with_view_witness :
  exists h',
    BlogIndex Sample.rhythm Sample.scale Sample.PATH_PREFIX Sample.env
      (VRef 12%positive) SamplePage.heap =
      Some (View.BlogIndex Sample.rhythm Sample.scale Sample.PATH_PREFIX
              Sample.env SamplePage.data Sample.home, h') /\
    SamplePage.heap ⊆ h' /\
    readData h' (VRef 8%positive) = Some SamplePage.data /\
    readLocation h' (VRef 9%positive) = Some Sample.home.
Proof.
  apply (PageProperties.BlogIndex_page_agrees_with_view Sample.rhythm Sample.scale
           Sample.PATH_PREFIX SamplePage.heap Sample.env (VRef 12%positive)
           (VRef 8%positive) (VRef 9%positive) SamplePage.data Sample.home);
    vm_compute; reflexivity.
Defined.

Lemma BlogIndex_throws_without_site_witness :
  BlogIndex Sample.rhythm Sample.scale Sample.PATH_PREFIX Sample.env
    (VRef 12%positive) SamplePage.heapNoSite = None.
Proof.
  apply (PageProperties.BlogIndex_throws_without_site Sample.rhythm Sample.scale
           Sample.PATH_PREFIX SamplePage.heapNoSite Sample.env (VRef 12%positive)).
  exists (VRef 8%positive). split; [reflexivity|].
  right. exists VUndefined. split; [reflexivity | by left].
Defined.




End Checks.
